(** * Shallow embedding of five modules of the dagster repository

    - [dagster/_config/structured_config.py]          (module [StructuredConfig])
    - [dagster/_core/definitions/metadata/table.py]   (module [Table])
    - [dagster/_core/reactive_scheduling/scheduling_policy.py]
                                                      (module [Scheduling])
    - [dagster_graphql/implementation/fetch_partition_sets.py]
                                                      (module [FetchPartitionSets])
    - [examples/with_openai/with_configs.py]          (module [WithOpenAI])

    Python dictionaries that are only iterated are association lists in
    insertion order; dictionaries that are looked up are [gmap]s.  A Python
    exception is the [Raise] branch of the [result] monad. *)

From Stdlib Require Import ZArith Ascii String List Bool Lia Strings.Byte.
From Stdlib Require Import Sorting.Permutation Sorting.Sorted.
From Stdlib Require OrderedTypeEx.
From stdpp Require Import base tactics option list gmap strings pretty sorting.

Set Warnings "-register-all".

Open Scope string_scope.
Open Scope list_scope.

(** ** Python values, truthiness and exceptions *)

Module Py.

(** The Python values that occur as declared defaults of configuration
    fields and as caller-supplied parameter defaults. *)
Inductive value : Type :=
| VNone
| VBool (b : bool)
| VInt (z : Z)
| VStr (s : string)
| VList (items : list value)
| VDict (items : list (string * value)).

(** [bool(v)]: what [if v] and [v or w] test. *)
Definition truthy (v : value) : bool :=
  match v with
  | VNone => false
  | VBool b => b
  | VInt z => negb (z =? 0)%Z
  | VStr s => match s with EmptyString => false | String _ _ => true end
  | VList items => match items with [] => false | _ :: _ => true end
  | VDict items => match items with [] => false | _ :: _ => true end
  end.

Definition truthy_str (s : string) : bool :=
  match s with EmptyString => false | String _ _ => true end.

(** [a or b] on optional strings ([None] and the empty string are falsy). *)
Definition or_else (a b : option string) : option string :=
  match a with
  | Some s => if truthy_str s then Some s else b
  | None => b
  end.

(** Text is held as its UTF-8 encoding, one [ascii] per byte.

    Whitespace as [str.strip] sees it in the ASCII range:
    [\t \n \v \f \r], the separators [0x1c .. 0x1f] and the space. *)
Definition isspace (c : ascii) : bool :=
  let n := nat_of_ascii c in
  (((9 <=? n) && (n <=? 13)) || ((28 <=? n) && (n <=? 32)))%nat.

(** The whitespace of two bytes: U+0085 and U+00A0. *)
Definition isspace2 (a b : ascii) : bool :=
  let x := nat_of_ascii a in
  let y := nat_of_ascii b in
  ((x =? 194) && ((y =? 133) || (y =? 160)))%nat.

(** The whitespace of three bytes: U+1680, U+2000 .. U+200A, U+2028,
    U+2029, U+202F, U+205F and U+3000. *)
Definition isspace3 (a b c : ascii) : bool :=
  let x := nat_of_ascii a in
  let y := nat_of_ascii b in
  let z := nat_of_ascii c in
  (((x =? 225) && (y =? 154) && (z =? 128))
   || ((x =? 226) && (y =? 128)
         && (((128 <=? z) && (z <=? 138)) || (z =? 168) || (z =? 169) || (z =? 175)))
   || ((x =? 226) && (y =? 129) && (z =? 159))
   || ((x =? 227) && (y =? 128) && (z =? 128)))%nat.

(** The text is one whitespace character. *)
Definition is_space_char (s : string) : bool :=
  match s with
  | String a EmptyString => isspace a
  | String a (String b EmptyString) => isspace2 a b
  | String a (String b (String c EmptyString)) => isspace3 a b c
  | _ => false
  end.

Fixpoint lstrip (s : string) : string :=
  match s with
  | EmptyString => EmptyString
  | String a rest =>
      if isspace a then lstrip rest
      else
        match rest with
        | EmptyString => s
        | String b rest2 =>
            if isspace2 a b then lstrip rest2
            else
              match rest2 with
              | EmptyString => s
              | String c rest3 => if isspace3 a b c then lstrip rest3 else s
              end
        end
  end.

(** A character is dropped at the end when what is kept after it is
    nothing and the character is whitespace. *)
Fixpoint rstrip (s : string) : string :=
  match s with
  | EmptyString => EmptyString
  | String c rest =>
      let kept := String c (rstrip rest) in
      if is_space_char kept then EmptyString else kept
  end.

Definition strip (s : string) : string := rstrip (lstrip s).

(** [s.endswith(suffix)] *)
Definition endswith (s suffix : string) : bool :=
  let n := String.length s in
  let m := String.length suffix in
  (m <=? n)%nat && String.eqb (substring (n - m) m s) suffix.

(** [c in s] for a character [c] *)
Fixpoint occurs (c : ascii) (s : string) : bool :=
  match s with
  | EmptyString => false
  | String d rest => Ascii.eqb c d || occurs c rest
  end.

(** The exceptions raised by the modelled code. *)
Inductive exn : Type :=
| NotImplementedError (msg : string)
| CheckError (msg : string)
| ParameterCheckError (msg : string)
| TypeError (msg : string)
| DagsterInvalidDefinitionError (msg : string)
| ValidationError (model : string) (missing : list string)
| IsADirectoryError (path : string)
| FileNotFoundError (path : string)
| JSONDecodeError (msg : string)
| UnpicklingError (msg : string)
| DagsterInvalidConfigError (msg : string)
| ConfigError (msg : string).

(** A computation that returns or raises. *)
Inductive result (A : Type) : Type :=
| Ok (a : A)
| Raise (e : exn).
Arguments Ok {A} a.
Arguments Raise {A} e.

Definition bind {A B : Type} (m : result A) (k : A -> result B) : result B :=
  match m with
  | Ok a => k a
  | Raise e => Raise e
  end.

Definition is_ok {A : Type} (m : result A) : bool :=
  match m with Ok _ => true | Raise _ => false end.

(** A [for] loop that builds a list and stops at the first exception. *)
Fixpoint for_each {A B : Type} (body : A -> result B) (items : list A)
  : result (list B) :=
  match items with
  | [] => Ok []
  | x :: rest =>
      bind (body x) (fun y => bind (for_each body rest) (fun ys => Ok (y :: ys)))
  end.

End Py.

Export Py(result, Ok, Raise).

#[global] Instance result_ret : MRet result := @Ok.
#[global] Instance result_bind : MBind result := fun A B k m => Py.bind m k.

(** ** dagster/_config/structured_config.py *)

Module StructuredConfig.

(** Type annotations.  [TyConfig] is a subclass of [Config] with its
    docstring and its pydantic [__fields__] in declaration order; [TyClass]
    is any other class ([int], [str], ...); [TyNotAType] is an annotation
    that is not an instance of [type].  Classes are finite trees: a record
    nests records, it does not contain itself. *)
Inductive annotation : Type :=
| TyConfig (name : string) (doc : option string)
           (fields : list (string * ModelField))
| TyClass (name : string)
| TyNotAType (repr : string)
with ModelField : Type :=
| Build_ModelField (type_ : annotation) (shape : Z) (default : Py.value)
                   (description : option string).

Definition type_ (f : ModelField) : annotation :=
  match f with Build_ModelField t _ _ _ => t end.
Definition shape (f : ModelField) : Z :=
  match f with Build_ModelField _ s _ _ => s end.
Definition default (f : ModelField) : Py.value :=
  match f with Build_ModelField _ _ d _ => d end.
Definition description (f : ModelField) : option string :=
  match f with Build_ModelField _ _ _ d => d end.

(** [pydantic.fields]: the shape constants. *)
Definition SHAPE_SINGLETON : Z := 1.
Definition SHAPE_LIST : Z := 2.
Definition SHAPE_SET : Z := 3.
Definition SHAPE_MAPPING : Z := 4.

(** The default of a schema field: a value, or the sentinel
    [FIELD_NO_DEFAULT_PROVIDED]. *)
Inductive default_value : Type :=
| FIELD_NO_DEFAULT_PROVIDED
| Provided (v : Py.value).

(** Modelled from the spec: [dagster.Field] and [dagster.Shape] are declared
    outside the files at hand.  A ConfigField is "a named, typed leaf or
    nested node in a configuration schema; carries an optional default
    value and an optional description"; a field "either has a resolved
    default or is marked no default provided".  This is the data of a
    field; the constructor call is [new_Field] below. *)
Inductive ConfigType : Type :=
| Shape (fields : list (string * Field))
| ConfigTypeKey (key : string)
with Field : Type :=
| Build_Field (config : ConfigType) (field_description : option string)
              (field_default : default_value).

Definition config_type (f : Field) : ConfigType :=
  match f with Build_Field c _ _ => c end.
Definition field_description (f : Field) : option string :=
  match f with Build_Field _ d _ => d end.
Definition field_default (f : Field) : default_value :=
  match f with Build_Field _ _ d => d end.

(** The second argument of [infer_schema_from_config_annotation]: the
    sentinel [inspect.Parameter.empty] or a supplied value. *)
Inductive arg_default : Type :=
| Parameter_empty
| Supplied (v : Py.value).

Definition is_Parameter_empty (d : arg_default) : bool :=
  match d with Parameter_empty => true | Supplied _ => false end.

(** [_safe_is_subclass(cls, Config)] *)
Definition _safe_is_subclass (cls : annotation) : bool :=
  match cls with
  | TyConfig _ _ _ => true
  | TyClass _ => false
  | TyNotAType _ => false
  end.

Definition shape_not_supported (s : Z) : string :=
  "Pydantic shape " ++ pretty s ++ " not supported".

Definition docstring_of (doc : option string) : option string :=
  match doc with
  | Some d => if Py.truthy_str d then Some (Py.strip d) else None
  | None => None
  end.

Section WithFieldUtils.

(** [dagster._config.field_utils.convert_potential_field], which turns a
    primitive or compound annotation into a schema field or raises. *)
Variable convert_potential_field : annotation -> result Field.

(** The config system behind [Field]: the validation of a default against
    a config type, which returns or raises, and the default that a type
    has of its own ([None]: it has none; a record whose fields are all
    optional has one, and resolving it returns the value or raises). *)
Variable validate_default : ConfigType -> Py.value -> result unit.
Variable resolve_implicit_default : ConfigType -> option (result Py.value).

(** Modelled from the spec: the constructor call
    [Field(config=..., description=..., default_value=...)].  "Any
    field/default mismatch is a construction-time error": a default that is
    passed in is validated against the type, and the constructor raises
    when it does not fit.  "A field either has a resolved default or is
    marked no default provided": when [FIELD_NO_DEFAULT_PROVIDED] is passed
    in, the default of the field is the resolved default of the type if
    the type has one, and the sentinel otherwise. *)
Definition new_Field (config : ConfigType) (description : option string)
  (default_value_ : default_value) : result Field :=
  match default_value_ with
  | Provided v =>
      _ ← validate_default config v;
      Ok (Build_Field config description (Provided v))
  | FIELD_NO_DEFAULT_PROVIDED =>
      match resolve_implicit_default config with
      | None => Ok (Build_Field config description FIELD_NO_DEFAULT_PROVIDED)
      | Some resolved =>
          v ← resolved;
          Ok (Build_Field config description (Provided v))
      end
  end.

Fixpoint infer_schema_from_config_class
  (model_cls : annotation) (description : option string) : result Field :=
  match model_cls with
  | TyConfig _ doc __fields__ =>
      fields ←
        (fix items (l : list (string * ModelField))
           : result (list (string * Field)) :=
           match l with
           | [] => Ok []
           | (pydantic_field_name, pydantic_field) :: rest =>
               converted ← _convert_pydantic_field pydantic_field;
               others ← items rest;
               Ok ((pydantic_field_name, converted) :: others)
           end) __fields__;
      new_Field (Shape fields) (Py.or_else description (docstring_of doc))
        FIELD_NO_DEFAULT_PROVIDED
  | TyClass _ =>
      Raise (Py.ParameterCheckError
        "Config type annotation must inherit from dagster._config.structured_config.Config")
  | TyNotAType _ =>
      Raise (Py.TypeError "issubclass() arg 1 must be a class")
  end
with _convert_pydantic_field (pydantic_field : ModelField) : result Field :=
  match pydantic_field with
  | Build_ModelField ty shp dflt descr =>
      if _safe_is_subclass ty
      then infer_schema_from_config_class ty descr
      else
        let dagster_type := ty in
        if negb (shp =? SHAPE_SINGLETON)%Z
        then Raise (Py.NotImplementedError (shape_not_supported shp))
        else
          inner ← convert_potential_field dagster_type;
          new_Field (config_type inner) descr
            (if Py.truthy dflt then Provided dflt
             else FIELD_NO_DEFAULT_PROVIDED)
  end.

Definition infer_schema_from_config_annotation
  (model_cls : annotation) (config_arg_default : arg_default) : result Field :=
  if _safe_is_subclass model_cls then
    if is_Parameter_empty config_arg_default
    then infer_schema_from_config_class model_cls None
    else Raise (Py.CheckError
           "Cannot provide a default value when using a Config class")
  else
    inner ← convert_potential_field model_cls;
    new_Field (config_type inner) None
      (match config_arg_default with
       | Parameter_empty => FIELD_NO_DEFAULT_PROVIDED
       | Supplied v => Provided v
       end).

End WithFieldUtils.

End StructuredConfig.

(** ** dagster/_core/definitions/metadata/table.py *)

Module Table.

(** *** pydantic model construction

    A field declared with an annotation only is required, unless the
    annotation is [Optional[...]], whose default is [None]; a field declared
    with [= v] has default [v].  Constructing a model without a keyword for
    a required field raises [ValidationError], which lists every missing
    field. *)
Inductive declared (A : Type) : Type :=
| Required
| Default (a : A).
Arguments Required {A}.
Arguments Default {A} a.

(** The value of one field from its keyword argument and declaration:
    [inl name] when a required field was not supplied. *)
Definition field_value {A : Type}
  (name : string) (decl : declared A) (kw : option A) : string + A :=
  match kw, decl with
  | Some a, _ => inr a
  | None, Default a => inr a
  | None, Required => inl name
  end.

Definition missing {A : Type} (v : string + A) : list string :=
  match v with inl name => [name] | inr _ => [] end.

(** *** The models *)

Record TableConstraints : Type :=
  { tc_other : list string }.

Record TableColumnConstraints : Type :=
  { nullable : bool;
    unique : bool;
    other : option (list string) }.

Record TableColumn : Type :=
  { name : string;
    type : string;
    description : option string;
    constraints : TableColumnConstraints }.

Record TableSchema : Type :=
  { columns : list TableColumn;
    ts_constraints : TableConstraints }.

(** [TableConstraints(other=...)]: [other: Sequence[str]] *)
Definition new_TableConstraints (kw_other : option (list string))
  : result TableConstraints :=
  match field_value "other" Required kw_other with
  | inr o => Ok {| tc_other := o |}
  | v => Raise (Py.ValidationError "TableConstraints" (missing v))
  end.

(** [TableColumnConstraints(nullable=..., unique=..., other=...)]:
    [nullable: bool], [unique: bool], [other: Optional[Sequence[str]]] *)
Definition new_TableColumnConstraints
  (kw_nullable kw_unique : option bool) (kw_other : option (option (list string)))
  : result TableColumnConstraints :=
  match field_value "nullable" Required kw_nullable,
        field_value "unique" Required kw_unique,
        field_value "other" (Default None) kw_other with
  | inr n, inr u, inr o => Ok {| nullable := n; unique := u; other := o |}
  | vn, vu, vo =>
      Raise (Py.ValidationError "TableColumnConstraints"
               (missing vn ++ missing vu ++ missing vo))
  end.

(** The module-level names bound while the module is executed. *)
Record globals : Type :=
  { _DEFAULT_TABLE_CONSTRAINTS : TableConstraints;
    _DEFAULT_TABLE_COLUMN_CONSTRAINTS : TableColumnConstraints }.

(** [TableColumn(name=..., type=..., description=..., constraints=...)]:
    [name: str], [type: str = "string"], [description: Optional[str]],
    [constraints = _DEFAULT_TABLE_COLUMN_CONSTRAINTS] *)
Definition new_TableColumn (g : globals)
  (kw_name kw_type : option string) (kw_description : option (option string))
  (kw_constraints : option TableColumnConstraints) : result TableColumn :=
  match field_value "name" Required kw_name,
        field_value "type" (Default "string") kw_type,
        field_value "description" (Default None) kw_description,
        field_value "constraints" (Default (_DEFAULT_TABLE_COLUMN_CONSTRAINTS g))
          kw_constraints with
  | inr n, inr t, inr d, inr c =>
      Ok {| name := n; type := t; description := d; constraints := c |}
  | vn, vt, vd, vc =>
      Raise (Py.ValidationError "TableColumn"
               (missing vn ++ missing vt ++ missing vd ++ missing vc))
  end.

(** [TableSchema(columns=..., constraints=...)]:
    [columns: Sequence["TableColumn"]],
    [constraints: "TableConstraints" = _DEFAULT_TABLE_CONSTRAINTS].
    [TableColumn] is defined further down than [TableSchema], and the
    module does not call [update_forward_refs]: the annotation of [columns]
    stays a forward reference, and validating a value for the field raises
    [ConfigError].  Without [columns] the field is reported missing. *)
Definition new_TableSchema (g : globals)
  (kw_columns : option (list TableColumn)) (kw_constraints : option TableConstraints)
  : result TableSchema :=
  match kw_columns with
  | Some _ =>
      Raise (Py.ConfigError
               "field 'columns' not yet prepared so type is still a ForwardRef")
  | None => Raise (Py.ValidationError "TableSchema" ["columns"])
  end.

(** Executing the module top to bottom binds the two defaults:
    [_DEFAULT_TABLE_CONSTRAINTS = TableConstraints(other=[])] and
    [_DEFAULT_TABLE_COLUMN_CONSTRAINTS = TableColumnConstraints()]. *)
Definition import_module : result globals :=
  default_table ← new_TableConstraints (Some []);
  default_column ← new_TableColumnConstraints None None None;
  Ok {| _DEFAULT_TABLE_CONSTRAINTS := default_table;
        _DEFAULT_TABLE_COLUMN_CONSTRAINTS := default_column |}.

(** [TableSchema.from_name_type_dict], in a module whose globals are [g].
    The mapping is an association list in insertion order. *)
Definition from_name_type_dict (g : globals) (name_type_dict : list (string * string))
  : result TableSchema :=
  cols ← Py.for_each
           (fun item => new_TableColumn g (Some (fst item)) (Some (snd item)) None None)
           name_type_dict;
  new_TableSchema g (Some cols) None.

(** What a caller gets: import the module, then call the constructor. *)
Definition TableSchema_from_name_type_dict (name_type_dict : list (string * string))
  : result TableSchema :=
  g ← import_module;
  from_name_type_dict g name_type_dict.

End Table.

(** ** dagster/_core/reactive_scheduling/scheduling_policy.py *)

Module Scheduling.

(** [AssetPartition = AssetKeyPartitionKey] *)
Record AssetPartition : Type :=
  { asset_key : list string;
    partition_key : option string }.

Record SchedulingResult : Type :=
  { launch : bool;
    partition_keys : option (gset string) }.

(** [SchedulingResult(launch=...)]: [partition_keys] defaults to [None]. *)
Definition new_SchedulingResult (launch : bool) : SchedulingResult :=
  {| launch := launch; partition_keys := None |}.

Record RequestReaction : Type :=
  { include : bool }.

Inductive DefaultSensorStatus : Type := RUNNING | STOPPED.

Record TickSettings : Type :=
  { tick_cron : string;
    sensor_name : option string;
    description : option string;
    default_status : DefaultSensorStatus }.

Section WithHost.

(** The host's types: timestamps, repository definitions, instances. *)
Variables datetime RepositoryDefinition DagsterInstance : Type.

Record SchedulingExecutionContext : Type :=
  { evaluation_time : datetime;
    repository_def : RepositoryDefinition;
    instance : DagsterInstance }.

(** A policy class is the table of its attributes.  A method returns
    [Some r] for [return r] and [None] when its body ends without a
    [return] (Python's [None]). *)
Record policy : Type :=
  { tick_settings : option TickSettings;
    schedule : SchedulingExecutionContext -> option SchedulingResult;
    react_to_downstream_request :
      SchedulingExecutionContext -> AssetPartition -> option RequestReaction;
    react_to_upstream_request :
      SchedulingExecutionContext -> AssetPartition -> option RequestReaction }.

(** [class SchedulingPolicy]: the three bodies are [...]. *)
Definition SchedulingPolicy : policy :=
  {| tick_settings := None;
     schedule := fun _ => None;
     react_to_downstream_request := fun _ _ => None;
     react_to_upstream_request := fun _ _ => None |}.

(** [class DefaultSchedulingPolicy(SchedulingPolicy)]: overrides two
    methods and inherits the rest. *)
Definition DefaultSchedulingPolicy : policy :=
  {| tick_settings := tick_settings SchedulingPolicy;
     schedule := fun _ => Some (new_SchedulingResult false);
     react_to_downstream_request := fun _ _ => Some {| include := false |};
     react_to_upstream_request := react_to_upstream_request SchedulingPolicy |}.

End WithHost.

Arguments Build_SchedulingExecutionContext {_ _ _} _ _ _.
Arguments evaluation_time {_ _ _} _.
Arguments repository_def {_ _ _} _.
Arguments instance {_ _ _} _.
Arguments tick_settings {_ _ _} _.
Arguments schedule {_ _ _} _ _.
Arguments react_to_downstream_request {_ _ _} _ _ _.
Arguments react_to_upstream_request {_ _ _} _ _ _.

End Scheduling.

(** ** dagster_graphql/implementation/fetch_partition_sets.py *)

Module FetchPartitionSets.

Record ExternalPartitionSet : Type :=
  { pipeline_name : string;
    mode : string;
    name : string }.

(** *** Python's [sorted(iterable, key=...)] *)

(** Three-way comparison of the key tuples, position by position; strings
    compare by code units, as [str] does. *)
Definition tuple_compare (a b : string * string * string) : comparison :=
  let '(a1, a2, a3) := a in
  let '(b1, b2, b3) := b in
  match String.compare a1 b1 with
  | Eq => match String.compare a2 b2 with
          | Eq => String.compare a3 b3
          | c => c
          end
  | c => c
  end.

(** [a < b] on key tuples, the only comparison the sort performs. *)
Definition tuple_ltb (a b : string * string * string) : bool :=
  match tuple_compare a b with Lt => true | _ => false end.

(** [a <= b], that is [not (b < a)]. *)
Definition tuple_le (a b : string * string * string) : Prop :=
  tuple_ltb b a = false.

Section Sorted.
Context {A : Type} (key : A -> string * string * string).

(** [x] precedes every element of [l] in the input: it is placed before
    the first element that is not smaller, so equal keys keep their
    input order. *)
Fixpoint insert (x : A) (l : list A) : list A :=
  match l with
  | [] => [x]
  | y :: rest =>
      if tuple_ltb (key y) (key x) then y :: insert x rest else x :: l
  end.

(** [sorted] is stable; a stable sort has one possible output, which is
    the one computed here. *)
Fixpoint sorted (l : list A) : list A :=
  match l with
  | [] => []
  | x :: rest => insert x (sorted rest)
  end.
End Sorted.

Definition sort_key (partition_set : ExternalPartitionSet)
  : string * string * string :=
  (pipeline_name partition_set, mode partition_set, name partition_set).

(** [if pipeline_name:] on an optional string argument. *)
Definition truthy_opt (pipeline_name : option string) : bool :=
  match pipeline_name with
  | Some s => Py.truthy_str s
  | None => false
  end.

(** [partition_set.pipeline_name == pipeline_name] *)
Definition pipeline_name_eq (pipeline_name : option string)
  (partition_set : ExternalPartitionSet) : bool :=
  match pipeline_name with
  | Some s => String.eqb (FetchPartitionSets.pipeline_name partition_set) s
  | None => false
  end.

(** The result of a resolver: a node of the schema, or the error node the
    decorator builds. *)
Inductive response (A : Type) : Type :=
| Node (a : A)
| ErrorNode (e : Py.exn).
Arguments Node {A} a.
Arguments ErrorNode {A} e.

(** Modelled from the spec: the decorator [capture_dauphin_error] lives in
    [.utils], outside the files at hand: "any exception raised while
    resolving is caught and converted into a structured, typed error
    result". *)
Definition capture_dauphin_error {A : Type} (r : result A) : response A :=
  match r with
  | Ok a => Node a
  | Raise e => ErrorNode e
  end.

Section WithHost.

(** The host's repository handle. *)
Variable RepositoryHandle : Type.

(** [graphene_info.context.legacy_external_repository] *)
Record ExternalRepository : Type :=
  { handle : RepositoryHandle;
    get_external_partition_sets : list ExternalPartitionSet }.

(** The schema types [PartitionSet], [PartitionSets] and
    [PartitionSetNotFoundError]. *)
Record PartitionSet : Type :=
  { external_repository_handle : RepositoryHandle;
    external_partition_set : ExternalPartitionSet }.

Record PartitionSets : Type :=
  { results : list PartitionSet }.

Inductive PartitionSetOrError : Type :=
| Found (partition_set : PartitionSet)
| PartitionSetNotFoundError (partition_set_name : string).

Definition wrap (repository : ExternalRepository)
  (partition_set : ExternalPartitionSet) : PartitionSet :=
  {| external_repository_handle := handle repository;
     external_partition_set := partition_set |}.

Definition get_partition_sets_or_error
  (repository : ExternalRepository) (pipeline_name : option string)
  : response PartitionSets :=
  capture_dauphin_error
    (let partition_sets := get_external_partition_sets repository in
     let partition_sets :=
       if truthy_opt pipeline_name
       then filter (fun partition_set =>
                      pipeline_name_eq pipeline_name partition_set = true)
              partition_sets
       else partition_sets in
     Ok {| results := map (wrap repository) (sorted sort_key partition_sets) |}).

(** The [for] loop of [get_partition_set]: return at the first match. *)
Fixpoint scan (repository : ExternalRepository) (partition_set_name : string)
  (partition_sets : list ExternalPartitionSet) : PartitionSetOrError :=
  match partition_sets with
  | [] => PartitionSetNotFoundError partition_set_name
  | partition_set :: rest =>
      if String.eqb (name partition_set) partition_set_name
      then Found (wrap repository partition_set)
      else scan repository partition_set_name rest
  end.

(** The two [check] calls test the classes of the arguments, which the
    types of the parameters fix here. *)
Definition get_partition_set
  (repository : ExternalRepository) (partition_set_name : string)
  : response PartitionSetOrError :=
  capture_dauphin_error
    (let partition_sets := get_external_partition_sets repository in
     Ok (scan repository partition_set_name partition_sets)).

End WithHost.

Arguments handle {_} _.
Arguments get_external_partition_sets {_} _.
Arguments external_repository_handle {_} _.
Arguments external_partition_set {_} _.
Arguments results {_} _.
Arguments Build_PartitionSets {_} _.
Arguments Found {_} _.
Arguments PartitionSetNotFoundError {_} _.
Arguments wrap {_} _ _.
Arguments get_partition_sets_or_error {_} _ _.
Arguments scan {_} _ _ _.
Arguments get_partition_set {_} _ _.

End FetchPartitionSets.

(** ** examples/with_openai/with_configs.py *)

Module WithOpenAI.

Definition SEARCH_INDEX_FILE : string := "search_index.pickle".

(** [langchain.docstore.document.Document] *)
Record Document : Type :=
  { page_content : string;
    metadata : gmap string string }.

(** *** Files, the lock and the trace of file operations *)

Inductive event : Type :=
| LockAcquired (path : string)
| LockReleased (path : string)
| GetSize (path : string)
| ReadFile (path : string)
| WriteFile (path : string).

Record world : Type :=
  { files : gmap string (list byte);
    trace : list event }.

Definition log (e : event) (w : world) : world :=
  {| files := files w; trace := trace w ++ [e] |}.

(** A step returns or raises, and leaves a world behind in both cases. *)
Definition io (A : Type) : Type := world -> result A * world.

Definition io_ret {A : Type} (a : A) : io A := fun w => (Ok a, w).

Definition io_bind {A B : Type} (m : io A) (k : A -> io B) : io B :=
  fun w =>
    match m w with
    | (Ok a, w') => k a w'
    | (Raise e, w') => (Raise e, w')
    end.

Definition lift {A : Type} (r : result A) : io A := fun w => (r, w).

(** [os.path.getsize(path)] *)
Definition getsize (path : string) : io nat :=
  fun w =>
    match files w !! path with
    | Some data => (Ok (length data), log (GetSize path) w)
    | None => (Raise (Py.FileNotFoundError path), w)
    end.

(** [open(path, "rb")] and reading the whole file *)
Definition read_bytes (path : string) : io (list byte) :=
  fun w =>
    match files w !! path with
    | Some data => (Ok data, log (ReadFile path) w)
    | None => (Raise (Py.FileNotFoundError path), w)
    end.

(** [open(path, "wb")] and writing [data] *)
Definition write_bytes (path : string) (data : list byte) : io unit :=
  fun w =>
    (Ok tt, log (WriteFile path)
              {| files := <[path := data]> (files w); trace := trace w |}).

Section SearchIndex.

(** The vector index of [langchain.vectorstores.faiss.FAISS]. *)
Variable Index : Type.
(** [splitter.split_text] *)
Variable split_text : string -> list string.
(** [FAISS.from_documents(chunks, OpenAIEmbeddings(...))] *)
Variable from_documents : list Document -> result Index.
(** [self.merge_from(target)]: the value of [self] afterwards. *)
Variable merge_from : Index -> Index -> Index.
(** [self.serialize_to_bytes()] and, below, the bytes that [pickle.dump]
    writes: both are taken to return, so that a write is one step (a
    failure between opening the file for writing and the end of the dump
    would leave the file cut short). *)
Variable serialize_to_bytes : Index -> list byte.
Variable deserialize_from_bytes : list byte -> result Index.
Variable pickle_dump : list byte -> list byte.
Variable pickle_load : list byte -> result (list byte).
(** What acquiring a [FileLock] leaves in the lock file, from what the
    path held before ([None]: no such file). *)
Variable lock_file_contents : option (list byte) -> list byte.

(** [with FileLock(path): body]: the lock is released also when the body
    raises. *)
Definition with_FileLock {A : Type} (path : string) (body : io A) : io A :=
  fun w =>
    let acquired :=
      log (LockAcquired path)
        {| files := <[path := lock_file_contents (files w !! path)]> (files w);
           trace := trace w |} in
    let '(r, w') := body acquired in
    (r, log (LockReleased path) w').

Definition chunks_of (source_docs : list Document) : list Document :=
  flat_map
    (fun source =>
       map (fun chunk => {| page_content := chunk; metadata := metadata source |})
         (split_text (page_content source)))
    source_docs.

(** The asset [search_index]; logging is left out. *)
Definition search_index (source_docs : list Document) : io unit :=
  let source_chunks := chunks_of source_docs in
  io_bind (lift (from_documents source_chunks)) (fun search_index =>
  with_FileLock SEARCH_INDEX_FILE
    (io_bind (getsize SEARCH_INDEX_FILE) (fun size =>
     io_bind
       (if (0 <? size)%nat then
          io_bind (read_bytes SEARCH_INDEX_FILE) (fun data =>
          io_bind (lift (pickle_load data)) (fun serialized_search_index =>
          io_bind (lift (deserialize_from_bytes serialized_search_index))
            (fun cached_search_index =>
          io_ret (merge_from search_index cached_search_index))))
        else io_ret search_index)
       (fun search_index =>
     write_bytes SEARCH_INDEX_FILE
       (pickle_dump (serialize_to_bytes search_index)))))).

End SearchIndex.

(** *** The sensor [question_sensor] *)

(** Decoded JSON; numbers keep their literal. *)
Inductive json : Type :=
| JNull
| JBool (b : bool)
| JNumber (literal : string)
| JString (s : string)
| JArray (items : list json)
| JObject (members : list (string * json)).

(** [{**request_config}]: only a mapping can be unpacked. *)
Definition unpack_mapping (request_config : json)
  : result (list (string * json)) :=
  match request_config with
  | JObject members => Ok members
  | _ => Raise (Py.TypeError "object is not a mapping")
  end.

Record RunRequest : Type :=
  { run_key : string;
    run_config : json }.

Section QuestionSensor.

(** Modification times, as [os.path.getmtime] returns them, with their
    rendering in an f-string. *)
Context {Mtime : Type} `{EqDecision Mtime}.
Variable str_of_mtime : Mtime -> string.
(** [json.load] on the text of a file *)
Variable json_load : string -> result json.

(** One name of [os.listdir(PATH_TO_QUESTIONS)] with what the file
    system says about it. *)
Record dir_entry : Type :=
  { isfile : bool;
    getmtime : Mtime;
    text : string }.

(** The cursor is kept decoded: [json.dumps] and [json.loads] are
    inverse to each other on a mapping from names to times. *)
Record SensorResult : Type :=
  { run_requests : list RunRequest;
    cursor : gmap string Mtime }.

Definition make_run_key (filename : string) (last_modified : Mtime) : string :=
  "adhoc_request_" ++ filename ++ "_" ++ str_of_mtime last_modified.

Definition make_run_config (members : list (string * json)) : json :=
  JObject [("ops", JObject [("completion", JObject [("config", JObject members)])])].

(** [filename not in previous_state or
     previous_state[filename] != last_modified] *)
Definition changed (previous_state : gmap string Mtime)
  (filename : string) (last_modified : Mtime) : bool :=
  match previous_state !! filename with
  | None => true
  | Some seen => negb (bool_decide (seen = last_modified))
  end.

(** The body of the [for] loop on the pair
    [(current_state, runs_to_request)]. *)
Definition visit (previous_state : gmap string Mtime)
  (state : gmap string Mtime * list RunRequest) (item : string * dir_entry)
  : result (gmap string Mtime * list RunRequest) :=
  let '(current_state, runs_to_request) := state in
  let '(filename, entry) := item in
  if Py.endswith filename ".json" && isfile entry then
    let last_modified := getmtime entry in
    let current_state := <[filename := last_modified]> current_state in
    if changed previous_state filename last_modified then
      request_config ← json_load (text entry);
      members ← unpack_mapping request_config;
      Ok (current_state,
          runs_to_request ++
            [{| run_key := make_run_key filename last_modified;
                run_config := make_run_config members |}])
    else Ok (current_state, runs_to_request)
  else Ok (current_state, runs_to_request).

Fixpoint loop (previous_state : gmap string Mtime)
  (state : gmap string Mtime * list RunRequest)
  (listing : list (string * dir_entry))
  : result (gmap string Mtime * list RunRequest) :=
  match listing with
  | [] => Ok state
  | item :: rest =>
      state' ← visit previous_state state item;
      loop previous_state state' rest
  end.

Definition question_sensor (listing : list (string * dir_entry))
  (context_cursor : option (gmap string Mtime)) : result SensorResult :=
  let previous_state :=
    match context_cursor with Some c => c | None => ∅ end in
  final ← loop previous_state (∅, []) listing;
  Ok {| run_requests := snd final; cursor := fst final |}.

(** The notions in which the properties of the sensor are stated: the
    entries the loop looks at, whether one is due, and the request the
    loop builds for it. *)
Definition question_files (listing : list (string * dir_entry))
  : list (string * dir_entry) :=
  List.filter (fun item => Py.endswith (fst item) ".json" && isfile (snd item))
    listing.

Definition due (previous_state : gmap string Mtime) (item : string * dir_entry)
  : bool :=
  changed previous_state (fst item) (getmtime (snd item)).

Definition members_of (entry : dir_entry) : option (list (string * json)) :=
  match json_load (text entry) with
  | Ok (JObject members) => Some members
  | _ => None
  end.

Definition request_for (item : string * dir_entry) : RunRequest :=
  {| run_key := make_run_key (fst item) (getmtime (snd item));
     run_config := make_run_config (default [] (members_of (snd item))) |}.

Definition record_mtime (current_state : gmap string Mtime)
  (item : string * dir_entry) : gmap string Mtime :=
  <[fst item := getmtime (snd item)]> current_state.

End QuestionSensor.

Arguments isfile {_} _.
Arguments getmtime {_} _.
Arguments text {_} _.
Arguments Build_dir_entry {_} _ _ _.
Arguments run_requests {_} _.
Arguments cursor {_} _.

(** *** The generator [get_github_docs] *)

(** A checked-out tree: files with their text, directories with their
    entries in listing order. *)
Inductive node : Type :=
| File (content : string)
| Dir (entries : list (string * node)).

Definition entries_of (n : option node) : list (string * node) :=
  match n with
  | Some (Dir entries) => entries
  | _ => []
  end.

(** The entry of a directory under a name. *)
Definition child (name : string) (n : option node) : option node :=
  snd <$> List.find (fun e => String.eqb (fst e) name) (entries_of n).

(** [pathlib.Path.glob("*/" + last)] below [root], where [last] is
    ["*.md"] or ["*.mdx"]: the entries, of directories directly below
    [root], whose name ends with the suffix; each with its path relative
    to [root]. *)
Definition glob_one_level (suffix : string) (root : option node)
  : list (string * node) :=
  flat_map
    (fun d : string * node =>
       match snd d with
       | Dir entries =>
           map (fun e : string * node => ((fst d ++ "/" ++ fst e)%string, snd e))
             (List.filter (fun e => Py.endswith (fst e) suffix) entries)
       | File _ => []
       end)
    (entries_of root).

(** A name that [os.path.join] appends as one component below the
    directory: not empty, without a separator, neither [.] nor [..]. *)
Definition path_component (s : string) : bool :=
  Py.truthy_str s && negb (Py.occurs "/" s)
    && negb (String.eqb s ".") && negb (String.eqb s "..").

Definition github_url (repo_owner repo_name git_sha relative_path : string)
  : string :=
  "https://github.com/" ++ repo_owner ++ "/" ++ repo_name ++ "/blob/"
    ++ git_sha ++ "/" ++ relative_path.

Section GithubDocs.

(** The tree that [git clone --depth 1] leaves in the temporary
    directory and the output of [git rev-parse HEAD]. *)
Variable checkout : node.
Variable rev_parse_output : string.

(** The documents are collected as [list(...)] does in [source_docs]:
    opening a directory raises.  [category] is taken to be one path
    component ([path_component]), as the partition keys are. *)
Definition get_github_docs (repo_owner repo_name category : string)
  : result (list Document) :=
  let git_sha := Py.strip rev_parse_output in
  let docs_path :=
    child category (child "content" (child "docs" (Some checkout))) in
  let markdown_files :=
    glob_one_level ".md" docs_path ++ glob_one_level ".mdx" docs_path in
  Py.for_each
    (fun markdown_file : string * node =>
       let relative_path := fst markdown_file in
       match snd markdown_file with
       | File content =>
           Ok {| page_content := content;
                 metadata :=
                   {[ "source" :=
                        github_url repo_owner repo_name git_sha relative_path ]} |}
       | Dir _ => Raise (Py.IsADirectoryError relative_path)
       end)
    markdown_files.

(** The files the specification speaks of: every file, at any depth
    below a directory, whose name ends with the suffix; with its path
    relative to that directory. *)
Fixpoint files_anywhere (suffix : string) (n : node) : list (string * string) :=
  match n with
  | File _ => []
  | Dir entries =>
      (fix walk (l : list (string * node)) : list (string * string) :=
         match l with
         | [] => []
         | (name, File content) :: rest =>
             (if Py.endswith name suffix then [(name, content)] else [])
               ++ walk rest
         | (name, sub) :: rest =>
             map (fun p : string * string => ((name ++ "/" ++ fst p)%string, snd p))
               (files_anywhere suffix sub)
               ++ walk rest
         end) entries
  end.

End GithubDocs.

End WithOpenAI.

(** ** Concrete inputs used by the examples below *)

Module Examples.
Import StructuredConfig.

(** A converter that knows the three scalar classes. *)
Definition convert_scalar (ty : annotation) : result Field :=
  match ty with
  | TyClass c =>
      if String.eqb c "int" then Ok (Build_Field (ConfigTypeKey "Int") None FIELD_NO_DEFAULT_PROVIDED)
      else if String.eqb c "str" then Ok (Build_Field (ConfigTypeKey "String") None FIELD_NO_DEFAULT_PROVIDED)
      else if String.eqb c "bool" then Ok (Build_Field (ConfigTypeKey "Bool") None FIELD_NO_DEFAULT_PROVIDED)
      else Raise (Py.DagsterInvalidDefinitionError c)
  | _ => Raise (Py.DagsterInvalidDefinitionError "not a class")
  end.

(** A config system that knows the three scalar types and records.  A
    scalar accepts the values of its class ([True] is no [Int]) and has no
    default of its own; a record accepts a mapping, and a record whose
    fields all have a default has the mapping of these defaults as its
    own. *)
Definition accepts (config : ConfigType) (v : Py.value) : bool :=
  match config, v with
  | ConfigTypeKey key, Py.VInt _ => String.eqb key "Int"
  | ConfigTypeKey key, Py.VStr _ => String.eqb key "String"
  | ConfigTypeKey key, Py.VBool _ => String.eqb key "Bool"
  | Shape _, Py.VDict _ => true
  | _, _ => false
  end.

Definition validate_scalar (config : ConfigType) (v : Py.value) : result unit :=
  if accepts config v then Ok tt
  else Raise (Py.DagsterInvalidConfigError "Invalid default_value for Field.").

Fixpoint defaults_of (fields : list (string * Field))
  : option (list (string * Py.value)) :=
  match fields with
  | [] => Some []
  | (name, f) :: rest =>
      match field_default f, defaults_of rest with
      | Provided v, Some others => Some ((name, v) :: others)
      | _, _ => None
      end
  end.

Definition own_default (config : ConfigType) : option (result Py.value) :=
  match config with
  | Shape fields =>
      match defaults_of fields with
      | Some items => Some (Ok (Py.VDict items))
      | None => None
      end
  | ConfigTypeKey _ => None
  end.

(** [values: List[int]] *)
Definition list_of_int : ModelField :=
  Build_ModelField (TyClass "int") SHAPE_LIST Py.VNone None.

(** [retries: int = 0] *)
Definition retries_zero : ModelField :=
  Build_ModelField (TyClass "int") SHAPE_SINGLETON (Py.VInt 0) None.

(** [retries: int = 3] *)
Definition retries_three : ModelField :=
  Build_ModelField (TyClass "int") SHAPE_SINGLETON (Py.VInt 3) None.

(** [class Retrying(Config): retries: int = 3] *)
Definition Retrying : annotation :=
  TyConfig "Retrying" None [("retries", retries_three)].

(** [class OpenAIConfig(Config): model: str; question: str] *)
Definition OpenAIConfig : annotation :=
  TyConfig "OpenAIConfig" None
    [("model", Build_ModelField (TyClass "str") SHAPE_SINGLETON Py.VNone None);
     ("question", Build_ModelField (TyClass "str") SHAPE_SINGLETON Py.VNone None)].

(** [class Tagged(Config): name: str; values: List[int]] *)
Definition Tagged : annotation :=
  TyConfig "Tagged" None
    [("name", Build_ModelField (TyClass "str") SHAPE_SINGLETON Py.VNone None);
     ("values", list_of_int)].

(** [questions: List[OpenAIConfig]] *)
Definition list_of_records : ModelField :=
  Build_ModelField OpenAIConfig SHAPE_LIST Py.VNone None.

(** The partition sets of the listing example, in a repository whose
    handle is a name. *)
Definition job2_modeA_p1 : FetchPartitionSets.ExternalPartitionSet :=
  {| FetchPartitionSets.pipeline_name := "job2";
     FetchPartitionSets.mode := "modeA";
     FetchPartitionSets.name := "p1" |}.
Definition job1_modeB_p2 : FetchPartitionSets.ExternalPartitionSet :=
  {| FetchPartitionSets.pipeline_name := "job1";
     FetchPartitionSets.mode := "modeB";
     FetchPartitionSets.name := "p2" |}.
Definition job1_modeA_p3 : FetchPartitionSets.ExternalPartitionSet :=
  {| FetchPartitionSets.pipeline_name := "job1";
     FetchPartitionSets.mode := "modeA";
     FetchPartitionSets.name := "p3" |}.

Definition repository : FetchPartitionSets.ExternalRepository string :=
  {| FetchPartitionSets.handle := "repo";
     FetchPartitionSets.get_external_partition_sets :=
       [job2_modeA_p1; job1_modeB_p2; job1_modeA_p3] |}.

(** A question directory: times are counted in whole units and printed
    in decimal; the loader knows one well-formed text. *)
Definition load_example (text : string) : result WithOpenAI.json :=
  if String.eqb text "question one"
  then Ok (WithOpenAI.JObject
             [("model", WithOpenAI.JString "gpt-3.5-turbo");
              ("question", WithOpenAI.JString "What is an asset?")])
  else Raise (Py.JSONDecodeError text).

Definition q1 (mtime : N) : string * WithOpenAI.dir_entry (Mtime := N) :=
  ("q1.json", WithOpenAI.Build_dir_entry true mtime "question one").

Definition broken : string * WithOpenAI.dir_entry (Mtime := N) :=
  ("q1.json", WithOpenAI.Build_dir_entry true 7%N "not json").

(** A checkout with Markdown files at three depths below
    [docs/content/guides]. *)
Definition guides : WithOpenAI.node :=
  WithOpenAI.Dir
    [("intro.md", WithOpenAI.File "# Intro");
     ("assets", WithOpenAI.Dir
        [("overview.md", WithOpenAI.File "# Overview");
         ("notes.txt", WithOpenAI.File "notes");
         ("page.mdx", WithOpenAI.File "# Page");
         ("deep", WithOpenAI.Dir [("nested.md", WithOpenAI.File "# Nested")])])].

Definition checkout : WithOpenAI.node :=
  WithOpenAI.Dir
    [("README.md", WithOpenAI.File "# dagster");
     ("docs", WithOpenAI.Dir [("content", WithOpenAI.Dir [("guides", guides)])])].

Definition rev_parse_output : string := String "a" (String "b" (String "c" (String "1"
  (String "2" (String "3" (String (ascii_of_nat 10) EmptyString)))))).

(** An index that is the list of the bytes it holds; a pickle that puts
    one header byte in front. *)
Definition bytes_of_documents (chunks : list WithOpenAI.Document)
  : result (list byte) :=
  Ok (flat_map (fun d => list_byte_of_string (WithOpenAI.page_content d)) chunks).

Definition pickle_dump (data : list byte) : list byte := x80 :: data.

Definition pickle_load (data : list byte) : result (list byte) :=
  match data with
  | x80 :: rest => Ok rest
  | _ => Raise (Py.UnpicklingError "invalid load key")
  end.

Definition lock_keeps (before : option (list byte)) : list byte :=
  match before with Some data => data | None => [] end.

Definition lock_truncates (before : option (list byte)) : list byte := [].

Definition empty_world : WithOpenAI.world :=
  {| WithOpenAI.files := ∅; WithOpenAI.trace := [] |}.

Definition guide_docs : list WithOpenAI.Document :=
  [{| WithOpenAI.page_content := "ab"; WithOpenAI.metadata := ∅ |}].

Definition integration_docs : list WithOpenAI.Document :=
  [{| WithOpenAI.page_content := "c"; WithOpenAI.metadata := ∅ |}].

Definition run_search_index (lock : option (list byte) -> list byte)
  (docs : list WithOpenAI.Document) : WithOpenAI.io unit :=
  WithOpenAI.search_index (list byte) (fun s => [s]) bytes_of_documents
    (fun new prior => new ++ prior) (fun i => i) (fun data => Ok data)
    pickle_dump pickle_load lock docs.

Definition world_after_guides : WithOpenAI.world :=
  snd (run_search_index lock_keeps guide_docs empty_world).

End Examples.

(** ** What [str.strip] leaves at the two ends of a text *)

Module Ends.

(** The text begins with a whitespace character. *)
Definition starts_with_space (s : string) : bool :=
  match s with
  | EmptyString => false
  | String a rest =>
      Py.isspace a
      || match rest with
         | EmptyString => false
         | String b rest2 =>
             Py.isspace2 a b
             || match rest2 with
                | EmptyString => false
                | String c _ => Py.isspace3 a b c
                end
         end
  end.

(** The text ends with a whitespace character: one of its suffixes is
    one. *)
Fixpoint ends_with_space (s : string) : bool :=
  match s with
  | EmptyString => false
  | String _ rest => Py.is_space_char s || ends_with_space rest
  end.

End Ends.

(** ** with_configs.py: the assets [source_docs] and [completion] and the
    helper [get_wiki_data] *)

Module Assets.
Import WithOpenAI.

Definition docs_partitions_def : list string := ["guides"; "integrations"].

Definition SUMMARY_TEMPLATE_format (content source : string) : string :=
  let newline := String (ascii_of_nat 10) EmptyString in
  (newline ++ "Content: " ++ content ++ newline ++ "Source: " ++ source
     ++ newline)%string.

(** The asset [source_docs] for one partition key. *)
Definition source_docs (checkout : node) (rev_parse_output partition_key : string)
  : result (list Document) :=
  get_github_docs checkout rev_parse_output "dagster-io" "dagster" partition_key.

(** The world after a run of [search_index] that went through the given
    file operations under the lock and left [data] in the index file. *)
Definition after_run (w : world) (data : list byte) (ops : list event) : world :=
  {| files := <[SEARCH_INDEX_FILE := data]> (files w);
     trace := trace w ++ LockAcquired SEARCH_INDEX_FILE :: ops
                ++ [LockReleased SEARCH_INDEX_FILE] |}.

(** The exceptions of subscripting and iteration, beside those of [Py]. *)
Inductive exn : Type :=
| KeyError (key : string)
| StopIteration
| AttributeError (msg : string)
| Exn (e : Py.exn).

Inductive outcome (A : Type) : Type :=
| Returned (a : A)
| Raised (e : exn).
Arguments Returned {A} a.
Arguments Raised {A} e.

Definition of_result {A : Type} (r : result A) : outcome A :=
  match r with
  | Ok a => Returned a
  | Raise e => Raised (Exn e)
  end.

Definition bind {A B : Type} (m : outcome A) (k : A -> outcome B) : outcome B :=
  match m with
  | Returned a => k a
  | Raised e => Raised e
  end.

(** A list comprehension whose element expression may raise. *)
Fixpoint comprehension {A B : Type} (element : A -> outcome B) (items : list A)
  : outcome (list B) :=
  match items with
  | [] => Returned []
  | x :: rest =>
      bind (element x) (fun y =>
      bind (comprehension element rest) (fun ys => Returned (y :: ys)))
  end.

(** [SUMMARY_TEMPLATE.format(content=doc.page_content,
                             source=doc.metadata["source"])] *)
Definition summary_of (doc : Document) : outcome string :=
  match metadata doc !! "source" with
  | Some source => Returned (SUMMARY_TEMPLATE_format (page_content doc) source)
  | None => Raised (KeyError "source")
  end.

Section Completion.

Variable Index : Type.
Variable Client : Type.
Variable Chat : Type.
Variable deserialize_from_bytes : list byte -> result Index.
Variable pickle_load : list byte -> result (list byte).
(** [openai.get_client(context)] *)
Variable get_client : result Client.
(** [ChatOpenAI(client=client.chat.completions, model=..., temperature=0)] *)
Variable ChatOpenAI : Client -> string -> result Chat.
(** [search_index.similarity_search(question, k=k)] *)
Variable similarity_search : Index -> string -> nat -> result (list Document).
(** Building [prompt | model | StrOutputParser()] and invoking it on the
    summaries and the question. *)
Variable chain_invoke : Chat -> list string -> string -> result string.

(** The body of [completion] once the index is loaded, in the order of
    the statements: the client, the chat model, the search, the summaries,
    the chain; the value is the text handed to [context.log.info]. *)
Definition answer (search_index : Index) (model question : string)
  : outcome string :=
  bind (of_result get_client) (fun client =>
  bind (of_result (ChatOpenAI client model)) (fun chat =>
  bind (of_result (similarity_search search_index question 4)) (fun docs =>
  bind (comprehension summary_of docs) (fun summaries =>
  of_result (chain_invoke chat summaries question))))).

(** The asset [completion] with its configuration [model], [question]. *)
Definition completion (model question : string)
  : world -> outcome string * world :=
  fun w =>
    match io_bind (read_bytes SEARCH_INDEX_FILE)
            (fun data => lift (pickle_load data)) w with
    | (Raise e, w') => (Raised (Exn e), w')
    | (Ok serialized_search_index, w') =>
        match deserialize_from_bytes serialized_search_index with
        | Raise e => (Raised (Exn e), w')
        | Ok search_index => (answer search_index model question, w')
        end
    end.

End Completion.

(** [data[key]] on decoded JSON; the members of a decoded mapping have
    distinct keys. *)
Definition subscript (data : json) (key : string) : outcome json :=
  match data with
  | JObject members =>
      match List.find (fun member => String.eqb (fst member) key) members with
      | Some member => Returned (snd member)
      | None => Raised (KeyError key)
      end
  | JArray _ =>
      Raised (Exn (Py.TypeError "list indices must be integers or slices, not str"))
  | JString _ => Raised (Exn (Py.TypeError "string indices must be integers"))
  | _ => Raised (Exn (Py.TypeError "object is not subscriptable"))
  end.

(** [next(iter(pages.values()))] *)
Definition first_value (pages : json) : outcome json :=
  match pages with
  | JObject [] => Raised StopIteration
  | JObject (member :: _) => Returned (snd member)
  | _ => Raised (AttributeError "object has no attribute 'values'")
  end.

(** The address that [get_wiki_data] requests. *)
Definition wiki_api_url (title : string) (first_paragraph_only : bool) : string :=
  let url :=
    ("https://en.wikipedia.org/w/api.php?format=json&action=query&prop=extracts&explaintext=1&titles="
       ++ title)%string in
  if first_paragraph_only then (url ++ "&exintro=1")%string else url.

Section Wiki.

(** [requests.get(url).json()] *)
Variable requests_get_json : string -> result json.
(** The validation of the field [page_content: str] of [Document]. *)
Variable validate_page_content : json -> result string.

Definition get_wiki_data (title : string) (first_paragraph_only : bool)
  : outcome Document :=
  bind (of_result (requests_get_json (wiki_api_url title first_paragraph_only)))
    (fun data =>
  bind (subscript data "query") (fun query =>
  bind (subscript query "pages") (fun pages =>
  bind (first_value pages) (fun page =>
  bind (subscript page "extract") (fun extract =>
  bind (of_result (validate_page_content extract)) (fun content =>
  Returned
    {| page_content := content;
       metadata :=
         {[ "source" := ("https://en.wikipedia.org/wiki/" ++ title)%string ]} |})))))).

End Wiki.

End Assets.

(** ** Further concrete inputs *)

Module MoreExamples.

(** A repository that lists the partition sets of [Examples.repository]
    in another order. *)
Definition reordered : FetchPartitionSets.ExternalRepository string :=
  {| FetchPartitionSets.handle := "repo";
     FetchPartitionSets.get_external_partition_sets :=
       [Examples.job1_modeA_p3; Examples.job2_modeA_p1; Examples.job1_modeB_p2] |}.

(** A checkout in which a directory one level down is named like a
    Markdown file. *)
Definition checkout_with_directory : WithOpenAI.node :=
  WithOpenAI.Dir
    [("docs", WithOpenAI.Dir [("content", WithOpenAI.Dir [("guides",
       WithOpenAI.Dir
         [("assets", WithOpenAI.Dir
             [("overview.md", WithOpenAI.File "# Overview");
              ("archive.md", WithOpenAI.Dir [])])])])])].

(** A question directory, and the cursor of an earlier evaluation: [q1]
    has the time the cursor holds, [q2] another one, [q3] is not in the
    cursor; [notes.txt] is no question, [old.json] is a directory, and
    [gone.json] is in the cursor only. *)
Definition q2 : string * WithOpenAI.dir_entry (Mtime := N) :=
  ("q2.json", WithOpenAI.Build_dir_entry true 9%N "question one").

Definition q3 : string * WithOpenAI.dir_entry (Mtime := N) :=
  ("q3.json", WithOpenAI.Build_dir_entry true 4%N "question one").

Definition questions : list (string * WithOpenAI.dir_entry (Mtime := N)) :=
  [Examples.q1 5%N;
   ("notes.txt", WithOpenAI.Build_dir_entry true 3%N "notes");
   q2;
   ("old.json", WithOpenAI.Build_dir_entry false 4%N EmptyString);
   q3].

Definition prior_cursor : gmap string N :=
  {[ "q1.json" := 5%N; "q2.json" := 7%N; "gone.json" := 1%N ]}.

(** A search that returns what the index holds, as documents with a
    source, and a chain that answers with the number of summaries. *)
Definition documents_of (index : list byte) (question : string) (k : nat)
  : result (list WithOpenAI.Document) :=
  Ok (map (fun b =>
             {| WithOpenAI.page_content := string_of_list_byte [b];
                WithOpenAI.metadata := {[ "source" := "https://example.org" ]} |})
        (firstn k index)).

Definition chat_of (client : unit) (model : string) : result string := Ok model.

Definition count_summaries (chat : string)
  (summaries : list string) (question : string) : result string :=
  Ok (pretty (length summaries)).

Definition run_completion : WithOpenAI.world -> Assets.outcome string * WithOpenAI.world :=
  Assets.completion (list byte) unit string (fun data => Ok data)
    Examples.pickle_load (Ok tt) chat_of documents_of count_summaries
    "gpt-3.5-turbo" "What is an asset?".

(** A reply of the encyclopedia with one page. *)
Definition wiki_reply : WithOpenAI.json :=
  WithOpenAI.JObject
    [("batchcomplete", WithOpenAI.JString EmptyString);
     ("query", WithOpenAI.JObject
        [("pages", WithOpenAI.JObject
            [("1234", WithOpenAI.JObject
                [("title", WithOpenAI.JString "Dagster");
                 ("extract", WithOpenAI.JString "An orchestrator.")])])])].

Definition string_only (extract : WithOpenAI.json) : result string :=
  match extract with
  | WithOpenAI.JString s => Ok s
  | _ => Raise (Py.ValidationError "Document" ["page_content"])
  end.

(** A record with a docstring, and a record that nests it under a
    described field. *)
Definition Documented_doc : option string :=
  Some (String (ascii_of_nat 10)
          (String (ascii_of_nat 194) (String (ascii_of_nat 160)
             ("  Settings of the step. "
                ++ String (ascii_of_nat 227) (String (ascii_of_nat 128)
                     (String (ascii_of_nat 128) EmptyString)))))).

Definition Documented : StructuredConfig.annotation :=
  StructuredConfig.TyConfig "Documented" Documented_doc
    [("retries", Examples.retries_zero)].

Definition Nesting : StructuredConfig.annotation :=
  StructuredConfig.TyConfig "Nesting" None
    [("inner", StructuredConfig.Build_ModelField Documented
                 StructuredConfig.SHAPE_SINGLETON Py.VNone (Some "The inner step."))].

(** [class Broken(Config): when: datetime; values: List[int]] *)
Definition Broken : StructuredConfig.annotation :=
  StructuredConfig.TyConfig "Broken" None
    [("name", StructuredConfig.Build_ModelField (StructuredConfig.TyClass "str")
                StructuredConfig.SHAPE_SINGLETON Py.VNone None);
     ("when", StructuredConfig.Build_ModelField (StructuredConfig.TyClass "datetime")
                StructuredConfig.SHAPE_SINGLETON Py.VNone None);
     ("values", Examples.list_of_int)].

End MoreExamples.

(** * Properties *)

(** ** structured_config.py *)

Section StructuredConfigFacts.
Import StructuredConfig.

Variable convert_potential_field : annotation -> result Field.
Variable validate_default : ConfigType -> Py.value -> result unit.
Variable resolve_implicit_default : ConfigType -> option (result Py.value).

Abbreviation Field_ := (new_Field validate_default resolve_implicit_default).
Abbreviation convert_field :=
  (_convert_pydantic_field convert_potential_field validate_default
     resolve_implicit_default).
Abbreviation infer_class :=
  (infer_schema_from_config_class convert_potential_field validate_default
     resolve_implicit_default).
Abbreviation infer_annotation :=
  (infer_schema_from_config_annotation convert_potential_field validate_default
     resolve_implicit_default).

Lemma bind_assoc {A B C : Type} (m : result A) (k : A -> result B)
  (h : B -> result C) :
  Py.bind (m ≫= k) h = Py.bind m (fun x => Py.bind (k x) h).
Proof. destruct m; reflexivity. Qed.

(** The loop over [__fields__] is a [for] loop that stops at the first
    field that raises; the record is built from what it collected. *)
Lemma infer_class_fields name doc fields descr :
  infer_class (TyConfig name doc fields) descr =
    converted ← Py.for_each
                  (fun item => f ← convert_field (snd item); Ok (fst item, f))
                  fields;
    Field_ (Shape converted) (Py.or_else descr (docstring_of doc))
      FIELD_NO_DEFAULT_PROVIDED.
Proof.
  cbn [infer_schema_from_config_class].
  match goal with |- mbind _ ?l = mbind _ ?r => assert (l = r) as -> end;
    [|reflexivity].
  induction fields as [|[n f] rest IH]; [reflexivity|].
  cbn [Py.for_each]. rewrite <- IH. cbn [fst snd].
  rewrite bind_assoc. reflexivity.
Qed.

Lemma for_each_raises {A B : Type} (body : A -> result B) (x : A) (e : Py.exn) l :
  In x l -> body x = Raise e -> exists e', Py.for_each body l = Raise e'.
Proof.
  induction l as [|y rest IH]; [intros []|].
  intros [->|Hin] Hx; cbn [Py.for_each].
  - rewrite Hx. eauto.
  - destruct (body y); [|eauto].
    destruct (IH Hin Hx) as [e' ->]. eauto.
Qed.

Lemma for_each_first_raise {A B : Type} (body : A -> result B) (x : A) (e : Py.exn)
  before after :
  Forall (fun y => Py.is_ok (body y) = true) before ->
  body x = Raise e ->
  Py.for_each body (before ++ x :: after) = Raise e.
Proof.
  induction 1 as [|y rest Hy _ IH]; intros Hx; cbn [Py.for_each app].
  - rewrite Hx. reflexivity.
  - destruct (body y); [|discriminate]. cbn [Py.bind].
    rewrite (IH Hx). reflexivity.
Qed.

(** What the constructor has built, when it returns: the type and the
    description passed in; the default passed in, which was validated, or
    without one the resolved default of the type, if it has one. *)
Lemma new_Field_Ok config descr dflt fld :
  Field_ config descr dflt = Ok fld ->
  config_type fld = config
  /\ field_description fld = descr
  /\ match dflt with
     | Provided v =>
         field_default fld = Provided v /\ validate_default config v = Ok tt
     | FIELD_NO_DEFAULT_PROVIDED =>
         match resolve_implicit_default config with
         | None => field_default fld = FIELD_NO_DEFAULT_PROVIDED
         | Some resolved => exists v, resolved = Ok v /\ field_default fld = Provided v
         end
     end.
Proof.
  unfold new_Field. destruct dflt as [|v].
  - destruct (resolve_implicit_default config) as [[v|e]|]; cbn; try discriminate.
    + intros [= <-]. cbn. eauto.
    + intros [= <-]. cbn. auto.
  - destruct (validate_default config v) as [[]|e]; cbn; [|discriminate].
    intros [= <-]. cbn. auto.
Qed.

(** A field that is not a nested record and is not a singleton raises. *)
Lemma convert_field_shape f :
  _safe_is_subclass (type_ f) = false ->
  shape f <> SHAPE_SINGLETON ->
  convert_field f = Raise (Py.NotImplementedError (shape_not_supported (shape f))).
Proof.
  destruct f as [ty shp dflt descr]. cbn [type_ shape]. intros Hty Hshape.
  cbn [_convert_pydantic_field]. rewrite Hty.
  destruct (Z.eqb_spec shp SHAPE_SINGLETON); [contradiction|reflexivity].
Qed.

(** A nested record is converted by the class inference whatever the
    shape and the declared default of the field. *)
Lemma convert_field_record name doc fields shp dflt descr :
  convert_field (Build_ModelField (TyConfig name doc fields) shp dflt descr) =
    infer_class (TyConfig name doc fields) descr.
Proof. reflexivity. Qed.


(** C1: inferring a schema from a configuration-record class fails for
    every declared field of a primitive (non-record) type whose shape is
    not the single-value shape.  Converting the field raises
    [NotImplementedError] naming the shape, before any schema node is
    built; a class that declares the field never yields a schema; and when
    the fields declared before it convert, the class inference raises
    exactly that error. *)
Theorem C1_non_singleton_field_rejected (f : ModelField) :
  _safe_is_subclass (type_ f) = false ->
  shape f <> SHAPE_SINGLETON ->
  convert_field f = Raise (Py.NotImplementedError (shape_not_supported (shape f)))
  /\ (forall fld, convert_field f <> Ok fld)
  /\ (forall name doc fields fname descr,
        In (fname, f) fields ->
        exists e, infer_class (TyConfig name doc fields) descr = Raise e)
  /\ (forall name doc before after fname descr,
        Forall (fun item => Py.is_ok (convert_field (snd item)) = true) before ->
        infer_class (TyConfig name doc (before ++ (fname, f) :: after)) descr =
          Raise (Py.NotImplementedError (shape_not_supported (shape f)))).
Proof.
  intros Hty Hshape.
  pose proof (convert_field_shape f Hty Hshape) as Hraise.
  split; [exact Hraise|]. split; [|split].
  - intros fld. rewrite Hraise. discriminate.
  - intros name doc fields fname descr Hin. rewrite infer_class_fields.
    destruct (for_each_raises
                (fun item : string * ModelField =>
                   c ← convert_field (snd item); Ok (fst item, c))
                (fname, f) (Py.NotImplementedError (shape_not_supported (shape f)))
                fields Hin) as [e' He'].
    { cbn [snd]. rewrite Hraise. reflexivity. }
    rewrite He'. eauto.
  - intros name doc before after fname descr Hbefore. rewrite infer_class_fields.
    rewrite (for_each_first_raise _ (fname, f)
               (Py.NotImplementedError (shape_not_supported (shape f)))).
    + reflexivity.
    + induction Hbefore as [|item rest Hok _ IH]; constructor; [|exact IH].
      destruct (convert_field (snd item)); [reflexivity|exact Hok].
    + cbn [snd]. rewrite Hraise. reflexivity.
Qed.

(** C2 (as amended): for a configuration-record annotation, a supplied
    default raises the [check.invariant] error, and without a default the
    result is exactly that of the class inference, so that it succeeds
    whenever the class inference does.  For any other annotation that
    [convert_potential_field] accepts, a supplied default that validates
    against the inferred type is the default of the resulting field, and
    one that does not validate makes the construction of the field raise;
    without a supplied default the field carries the sentinel, unless the
    inferred type has a default of its own, which is then resolved.  An
    annotation that [convert_potential_field] rejects raises its error. *)
Theorem C2_annotation_inference (annotation_ : annotation) :
  (_safe_is_subclass annotation_ = true ->
     (forall v, infer_annotation annotation_ (Supplied v) =
                  Raise (Py.CheckError
                           "Cannot provide a default value when using a Config class"))
     /\ infer_annotation annotation_ Parameter_empty = infer_class annotation_ None)
  /\ (_safe_is_subclass annotation_ = false ->
       (forall inner,
           convert_potential_field annotation_ = Ok inner ->
           (forall v,
               (validate_default (config_type inner) v = Ok tt ->
                infer_annotation annotation_ (Supplied v) =
                  Ok (Build_Field (config_type inner) None (Provided v)))
               /\ (forall e,
                     validate_default (config_type inner) v = Raise e ->
                     infer_annotation annotation_ (Supplied v) = Raise e))
           /\ (resolve_implicit_default (config_type inner) = None ->
               infer_annotation annotation_ Parameter_empty =
                 Ok (Build_Field (config_type inner) None FIELD_NO_DEFAULT_PROVIDED))
           /\ (forall v,
                 resolve_implicit_default (config_type inner) = Some (Ok v) ->
                 infer_annotation annotation_ Parameter_empty =
                   Ok (Build_Field (config_type inner) None (Provided v)))
           /\ (forall e,
                 resolve_implicit_default (config_type inner) = Some (Raise e) ->
                 infer_annotation annotation_ Parameter_empty = Raise e))
       /\ (forall e d,
             convert_potential_field annotation_ = Raise e ->
             infer_annotation annotation_ d = Raise e)).
Proof.
  unfold infer_schema_from_config_annotation. split; intros Hty; rewrite Hty.
  - split; [intros v|]; reflexivity.
  - split.
    + intros inner ->. cbn [mbind result_bind Py.bind new_Field].
      split; [|split; [|split]].
      * intros v. split; [intros ->|intros e ->]; reflexivity.
      * intros ->. reflexivity.
      * intros v ->. reflexivity.
      * intros e ->. reflexivity.
    + intros e d ->. reflexivity.
Qed.


End StructuredConfigFacts.

(** The witness of C1: [values: List[int]]. *)
Lemma C1_witness :
  StructuredConfig._convert_pydantic_field Examples.convert_scalar
    Examples.validate_scalar Examples.own_default Examples.list_of_int =
    Raise (Py.NotImplementedError "Pydantic shape 2 not supported")
  /\ exists e,
      StructuredConfig.infer_schema_from_config_class Examples.convert_scalar
        Examples.validate_scalar Examples.own_default Examples.Tagged None = Raise e.
Proof.
  destruct (C1_non_singleton_field_rejected Examples.convert_scalar
              Examples.validate_scalar Examples.own_default Examples.list_of_int)
    as (Hraise & _ & Hclass & _).
  - reflexivity.
  - vm_compute. discriminate.
  - split.
    + exact Hraise.
    + apply (Hclass "Tagged" None _ "values" None). right. left. reflexivity.
Defined.

(** The counterexample to C2 as stated: a record annotation without a
    supplied default whose inference does not succeed, and the annotation
    [int] with the supplied default [None], which yields no field. *)
Lemma C2_counterexample :
  (StructuredConfig._safe_is_subclass Examples.Tagged = true
   /\ StructuredConfig.infer_schema_from_config_annotation Examples.convert_scalar
        Examples.validate_scalar Examples.own_default
        Examples.Tagged StructuredConfig.Parameter_empty =
      Raise (Py.NotImplementedError "Pydantic shape 2 not supported"))
  /\ (StructuredConfig._safe_is_subclass (StructuredConfig.TyClass "int") = false
      /\ StructuredConfig.infer_schema_from_config_annotation Examples.convert_scalar
           Examples.validate_scalar Examples.own_default
           (StructuredConfig.TyClass "int") (StructuredConfig.Supplied Py.VNone) =
         Raise (Py.DagsterInvalidConfigError "Invalid default_value for Field.")).
Proof. repeat split. Qed.

(** The witness of C2: the record [OpenAIConfig] and the class [int]. *)
Lemma C2_witness :
  (StructuredConfig.infer_schema_from_config_annotation Examples.convert_scalar
     Examples.validate_scalar Examples.own_default
     Examples.OpenAIConfig (StructuredConfig.Supplied Py.VNone) =
   Raise (Py.CheckError "Cannot provide a default value when using a Config class")
   /\ Py.is_ok
        (StructuredConfig.infer_schema_from_config_annotation Examples.convert_scalar
           Examples.validate_scalar Examples.own_default
           Examples.OpenAIConfig StructuredConfig.Parameter_empty) = true)
  /\ StructuredConfig.infer_schema_from_config_annotation Examples.convert_scalar
       Examples.validate_scalar Examples.own_default
       (StructuredConfig.TyClass "int") (StructuredConfig.Supplied (Py.VInt 3)) =
     Ok (StructuredConfig.Build_Field (StructuredConfig.ConfigTypeKey "Int") None
           (StructuredConfig.Provided (Py.VInt 3)))
  /\ StructuredConfig.infer_schema_from_config_annotation Examples.convert_scalar
       Examples.validate_scalar Examples.own_default
       (StructuredConfig.TyClass "int") (StructuredConfig.Supplied (Py.VStr "three")) =
     Raise (Py.DagsterInvalidConfigError "Invalid default_value for Field.")
  /\ StructuredConfig.infer_schema_from_config_annotation Examples.convert_scalar
       Examples.validate_scalar Examples.own_default
       (StructuredConfig.TyClass "int") StructuredConfig.Parameter_empty =
     Ok (StructuredConfig.Build_Field (StructuredConfig.ConfigTypeKey "Int") None
           StructuredConfig.FIELD_NO_DEFAULT_PROVIDED).
Proof.
  split.
  - destruct (C2_annotation_inference Examples.convert_scalar
                Examples.validate_scalar Examples.own_default Examples.OpenAIConfig)
      as [Hrecord _].
    destruct (Hrecord eq_refl) as [Hsupplied Hempty].
    split; [apply Hsupplied|]. rewrite Hempty. reflexivity.
  - destruct (C2_annotation_inference Examples.convert_scalar
                Examples.validate_scalar Examples.own_default
                (StructuredConfig.TyClass "int")) as [_ Hother].
    destruct (Hother eq_refl) as [Hok _].
    destruct (Hok _ eq_refl) as (Hsupplied & Hsentinel & _).
    split; [apply (Hsupplied (Py.VInt 3)); reflexivity|].
    split; [|apply Hsentinel; reflexivity].
    apply (Hsupplied (Py.VStr "three")). reflexivity.
Defined.


(** A list of nested records is converted as one nested record: the shape
    of the field is not looked at on that path. *)
Example list_of_records_is_converted :
  StructuredConfig._convert_pydantic_field Examples.convert_scalar
    Examples.validate_scalar Examples.own_default Examples.list_of_records =
  StructuredConfig.infer_schema_from_config_class Examples.convert_scalar
    Examples.validate_scalar Examples.own_default Examples.OpenAIConfig None.
Proof. reflexivity. Qed.

(** A record whose fields all have a default has a default of its own:
    the inferred field of [Retrying] carries the mapping of the defaults. *)
Example inferred_record_default :
  StructuredConfig.infer_schema_from_config_class Examples.convert_scalar
    Examples.validate_scalar Examples.own_default Examples.Retrying None =
  Ok (StructuredConfig.Build_Field
        (StructuredConfig.Shape
           [("retries",
             StructuredConfig.Build_Field (StructuredConfig.ConfigTypeKey "Int") None
               (StructuredConfig.Provided (Py.VInt 3)))])
        None
        (StructuredConfig.Provided (Py.VDict [("retries", Py.VInt 3)]))).
Proof. reflexivity. Qed.

(** ** table.py *)

Section TableFacts.
Import Table.

(** Also with the two defaults bound the constructor yields no schema:
    the columns are built, one per item of the mapping, and
    [TableSchema(columns=...)] raises for the forward reference. *)
Lemma from_name_type_dict_columns (g : globals) (d : list (string * string)) :
  Py.for_each
    (fun item => new_TableColumn g (Some (fst item)) (Some (snd item)) None None) d
  = Ok (map (fun item =>
               {| name := fst item; type := snd item; description := None;
                  constraints := _DEFAULT_TABLE_COLUMN_CONSTRAINTS g |}) d)
  /\ from_name_type_dict g d =
       Raise (Py.ConfigError
                "field 'columns' not yet prepared so type is still a ForwardRef").
Proof.
  assert (Py.for_each
            (fun item => new_TableColumn g (Some (fst item)) (Some (snd item)) None None) d
          = Ok (map (fun item =>
                   {| name := fst item; type := snd item; description := None;
                      constraints := _DEFAULT_TABLE_COLUMN_CONSTRAINTS g |}) d)) as Hcols.
  { induction d as [|item rest IH]; [reflexivity|].
    cbn [Py.for_each map]. rewrite IH. reflexivity. }
  split; [exact Hcols|]. unfold from_name_type_dict. rewrite Hcols. reflexivity.
Qed.

(** The default table constraints are [TableConstraints(other=[])]. *)
Lemma default_table_constraints :
  new_TableConstraints (Some []) = Ok {| tc_other := [] |}.
Proof. reflexivity. Qed.

(** [TableColumnConstraints()] raises: [nullable] and [unique] are
    declared without a default. *)
Lemma default_column_constraints_raise :
  new_TableColumnConstraints None None None =
    Raise (Py.ValidationError "TableColumnConstraints" ["nullable"; "unique"]).
Proof. reflexivity. Qed.

Lemma import_module_raises :
  import_module =
    Raise (Py.ValidationError "TableColumnConstraints" ["nullable"; "unique"]).
Proof. reflexivity. Qed.

(** C3: [TableSchema.from_name_type_dict({"a": "int", "b": "string"})]
    yields no schema: the module binds its default column constraints
    with [TableColumnConstraints()], which raises [ValidationError] for
    the two required fields, so the call cannot build the two columns. *)
Theorem C3_from_name_type_dict_raises :
  TableSchema_from_name_type_dict [("a", "int"); ("b", "string")] =
    Raise (Py.ValidationError "TableColumnConstraints" ["nullable"; "unique"]).
Proof. reflexivity. Qed.

End TableFacts.

(** ** scheduling_policy.py *)

Section SchedulingFacts.
Import Scheduling.

Variables datetime RepositoryDefinition DagsterInstance : Type.

Abbreviation context :=
  (SchedulingExecutionContext datetime RepositoryDefinition DagsterInstance).
Abbreviation base_policy :=
  (SchedulingPolicy datetime RepositoryDefinition DagsterInstance).
Abbreviation default_policy :=
  (DefaultSchedulingPolicy datetime RepositoryDefinition DagsterInstance).

(** C6 (as amended): for every context and asset partition the default
    policy returns a [SchedulingResult] with [launch = False] and no
    partition keys from [schedule], and a [RequestReaction] with
    [include = False] from [react_to_downstream_request]; the methods of
    the base class have empty bodies and return [None]. *)
Theorem C6_default_policy_is_inert (ctx : context) (asset_partition : AssetPartition) :
  schedule default_policy ctx =
    Some {| launch := false; partition_keys := None |}
  /\ react_to_downstream_request default_policy ctx asset_partition =
       Some {| include := false |}
  /\ schedule base_policy ctx = None
  /\ react_to_downstream_request base_policy ctx asset_partition = None.
Proof. repeat split. Qed.

End SchedulingFacts.

(** The counterexample to C6 as stated: [schedule] of the base class does
    not return a [SchedulingResult]. *)
Lemma C6_counterexample :
  Scheduling.schedule (Scheduling.SchedulingPolicy Z unit unit)
    {| Scheduling.evaluation_time := 0%Z;
       Scheduling.repository_def := tt;
       Scheduling.instance := tt |}
  <> Some {| Scheduling.launch := false; Scheduling.partition_keys := None |}.
Proof. discriminate. Qed.

(** ** fetch_partition_sets.py *)

Section StringOrder.

Lemma compare_refl (s : string) : String.compare s s = Eq.
Proof.
  induction s as [|c s IH]; [reflexivity|].
  cbn. replace (Ascii.compare c c) with Eq; [exact IH|].
  symmetry. apply OrderedTypeEx.Ascii_as_OT.cmp_eq. reflexivity.
Qed.

Lemma compare_Eq (a b : string) : String.compare a b = Eq <-> a = b.
Proof.
  split; [apply String.compare_eq_iff|]. intros ->. apply compare_refl.
Qed.

Lemma compare_Lt_trans (a b c : string) :
  String.compare a b = Lt -> String.compare b c = Lt -> String.compare a c = Lt.
Proof.
  intros Hab Hbc.
  apply OrderedTypeEx.String_as_OT.cmp_lt.
  apply OrderedTypeEx.String_as_OT.lt_trans with b;
    apply OrderedTypeEx.String_as_OT.cmp_lt; assumption.
Qed.

Lemma compare_Gt_Lt (a b : string) :
  String.compare a b = Gt <-> String.compare b a = Lt.
Proof.
  rewrite (String.compare_antisym b a).
  destruct (String.compare a b); cbn; split; congruence.
Qed.

End StringOrder.

Section TupleOrder.
Import FetchPartitionSets.

(** The comparison of the key tuples is the lexicographic one. *)
Lemma tuple_compare_Lt (a b : string * string * string) :
  tuple_compare a b = Lt <->
    String.compare a.1.1 b.1.1 = Lt
    \/ (a.1.1 = b.1.1 /\ String.compare a.1.2 b.1.2 = Lt)
    \/ (a.1.1 = b.1.1 /\ a.1.2 = b.1.2 /\ String.compare a.2 b.2 = Lt).
Proof.
  destruct a as [[a1 a2] a3], b as [[b1 b2] b3]. cbn.
  destruct (String.compare a1 b1) eqn:H1.
  - apply compare_Eq in H1 as ->.
    destruct (String.compare a2 b2) eqn:H2.
    + apply compare_Eq in H2 as ->. intuition congruence.
    + intuition congruence.
    + split; [discriminate|].
      intros [?|[[_ ?]|(_ & -> & _)]]; try discriminate.
      rewrite compare_refl in H2. discriminate.
  - intuition congruence.
  - split; [discriminate|].
    intros [?|[[-> _]|(-> & _)]]; try discriminate;
      rewrite compare_refl in H1; discriminate.
Qed.

Lemma tuple_compare_refl (a : string * string * string) : tuple_compare a a = Eq.
Proof. destruct a as [[a1 a2] a3]. cbn. rewrite !compare_refl. reflexivity. Qed.

Lemma tuple_compare_Eq (a b : string * string * string) :
  tuple_compare a b = Eq <-> a = b.
Proof.
  split; [|intros ->; apply tuple_compare_refl].
  destruct a as [[a1 a2] a3], b as [[b1 b2] b3]. cbn.
  destruct (String.compare a1 b1) eqn:H1; try discriminate.
  destruct (String.compare a2 b2) eqn:H2; try discriminate.
  intros H3. apply compare_Eq in H1, H2, H3. congruence.
Qed.

Lemma tuple_compare_antisym (a b : string * string * string) :
  tuple_compare a b = CompOpp (tuple_compare b a).
Proof.
  destruct a as [[a1 a2] a3], b as [[b1 b2] b3]. cbn.
  rewrite (String.compare_antisym b1 a1), (String.compare_antisym b2 a2),
    (String.compare_antisym b3 a3).
  destruct (String.compare a1 b1), (String.compare a2 b2),
    (String.compare a3 b3); reflexivity.
Qed.

Lemma tuple_compare_Lt_trans (a b c : string * string * string) :
  tuple_compare a b = Lt -> tuple_compare b c = Lt -> tuple_compare a c = Lt.
Proof.
  rewrite !tuple_compare_Lt.
  intros [H1|[[E1 H1]|(E1 & E2 & H1)]] [H2|[[F1 H2]|(F1 & F2 & H2)]];
    try rewrite E1 in *; try rewrite E2 in *;
    try rewrite <- F1 in *; try rewrite <- F2 in *;
    eauto 6 using compare_Lt_trans.
Qed.

Lemma tuple_le_iff (a b : string * string * string) :
  tuple_le a b <-> tuple_compare a b <> Gt.
Proof.
  unfold tuple_le, tuple_ltb. rewrite (tuple_compare_antisym b a).
  destruct (tuple_compare a b); cbn; split; congruence.
Qed.

Lemma tuple_le_refl (a : string * string * string) : tuple_le a a.
Proof. apply tuple_le_iff. rewrite tuple_compare_refl. discriminate. Qed.

Lemma tuple_le_trans (a b c : string * string * string) :
  tuple_le a b -> tuple_le b c -> tuple_le a c.
Proof.
  rewrite !tuple_le_iff. intros Hab Hbc.
  destruct (tuple_compare a b) eqn:Eab; [| |contradiction].
  - apply tuple_compare_Eq in Eab as ->. exact Hbc.
  - destruct (tuple_compare b c) eqn:Ebc; [| |contradiction].
    + apply tuple_compare_Eq in Ebc as <-. rewrite Eab. discriminate.
    + rewrite (tuple_compare_Lt_trans a b c Eab Ebc). discriminate.
Qed.

Lemma tuple_ltb_le (a b : string * string * string) :
  tuple_ltb a b = true -> tuple_le a b.
Proof.
  unfold tuple_ltb. intros H. apply tuple_le_iff.
  destruct (tuple_compare a b); congruence.
Qed.

Lemma tuple_ltb_neq (a b : string * string * string) :
  tuple_ltb a b = true -> a <> b.
Proof.
  unfold tuple_ltb. intros H ->. rewrite tuple_compare_refl in H. discriminate.
Qed.

End TupleOrder.

Section SortedFacts.
Import FetchPartitionSets.

Context {A : Type} (key : A -> string * string * string).

Abbreviation key_le := (fun a b : A => tuple_le (key a) (key b)).

Lemma insert_Permutation (x : A) (l : list A) :
  Permutation (insert key x l) (x :: l).
Proof.
  induction l as [|y rest IH]; cbn [insert]; [reflexivity|].
  destruct (tuple_ltb (key y) (key x)); [|reflexivity].
  rewrite IH. apply perm_swap.
Qed.

Lemma sorted_Permutation (l : list A) : Permutation (sorted key l) l.
Proof.
  induction l as [|x rest IH]; cbn [sorted]; [reflexivity|].
  rewrite insert_Permutation, IH. reflexivity.
Qed.

Lemma insert_StronglySorted (x : A) (l : list A) :
  StronglySorted key_le l -> StronglySorted key_le (insert key x l).
Proof.
  induction 1 as [|y rest Hsorted IH Hall]; cbn [insert].
  - repeat constructor.
  - destruct (tuple_ltb (key y) (key x)) eqn:Hlt.
    + constructor; [exact IH|].
      rewrite insert_Permutation. constructor; [|exact Hall].
      apply tuple_ltb_le. exact Hlt.
    + constructor; [constructor; assumption|].
      constructor; [exact Hlt|].
      eapply Forall_impl; [exact Hall|].
      intros z Hz. apply tuple_le_trans with (key y); [exact Hlt|exact Hz].
Qed.

Lemma sorted_StronglySorted (l : list A) : StronglySorted key_le (sorted key l).
Proof.
  induction l as [|x rest IH]; cbn [sorted]; [constructor|].
  apply insert_StronglySorted, IH.
Qed.

(** Stability: the elements under one key keep their input order. *)
Lemma insert_filter_other (k : string * string * string) (x : A) (l : list A) :
  key x <> k ->
  filter (fun y => key y = k) (insert key x l) = filter (fun y => key y = k) l.
Proof.
  intros Hx. induction l as [|y rest IH]; cbn [insert].
  - rewrite filter_cons_False by exact Hx. reflexivity.
  - destruct (tuple_ltb (key y) (key x)).
    + rewrite !(filter_cons _ y), IH. reflexivity.
    + rewrite filter_cons_False by exact Hx. reflexivity.
Qed.

Lemma insert_filter_same (x : A) (l : list A) :
  filter (fun y => key y = key x) (insert key x l) =
    x :: filter (fun y => key y = key x) l.
Proof.
  induction l as [|y rest IH]; cbn [insert].
  - rewrite filter_cons_True by reflexivity. reflexivity.
  - destruct (tuple_ltb (key y) (key x)) eqn:Hlt.
    + apply tuple_ltb_neq in Hlt.
      rewrite !(filter_cons_False _ y) by exact Hlt. exact IH.
    + rewrite filter_cons_True by reflexivity. reflexivity.
Qed.

Lemma sorted_stable (k : string * string * string) (l : list A) :
  filter (fun y => key y = k) (sorted key l) = filter (fun y => key y = k) l.
Proof.
  induction l as [|x rest IH]; cbn [sorted]; [reflexivity|].
  destruct (decide (key x = k)) as [<-|Hne].
  - rewrite insert_filter_same, IH, filter_cons_True by reflexivity. reflexivity.
  - rewrite insert_filter_other, IH, filter_cons_False by exact Hne. reflexivity.
Qed.

End SortedFacts.

Section FetchPartitionSetsFacts.
Import FetchPartitionSets.

Variable RepositoryHandle : Type.

Abbreviation ascending :=
  (fun a b : ExternalPartitionSet => tuple_le (sort_key a) (sort_key b)).

(** Ascending by job name, then mode, then name, written out on the
    three attributes; texts compare as [String.compare] orders them. *)
Abbreviation before_or_equal :=
  (fun p q : ExternalPartitionSet =>
     String.compare (FetchPartitionSets.pipeline_name p)
       (FetchPartitionSets.pipeline_name q) = Lt
     \/ (FetchPartitionSets.pipeline_name p = FetchPartitionSets.pipeline_name q
         /\ (String.compare (mode p) (mode q) = Lt
             \/ (mode p = mode q
                 /\ (String.compare (name p) (name q) = Lt
                     \/ name p = name q))))).

(** The three attributes of a partition set, in the order of the claim. *)
Abbreviation attributes :=
  (fun p : ExternalPartitionSet =>
     (FetchPartitionSets.pipeline_name p, mode p, name p)).

(** What the listing selects: every partition set when the argument is
    [None] or the empty string, else those of the named job. *)
Lemma selection (repository : ExternalRepository RepositoryHandle)
  (pipeline_name : option string) :
  get_partition_sets_or_error repository pipeline_name =
    Node {| results :=
              map (wrap repository)
                (sorted sort_key
                   (match pipeline_name with
                    | Some (String c s) =>
                        filter (fun partition_set =>
                                  FetchPartitionSets.pipeline_name partition_set
                                  = String c s)
                          (get_external_partition_sets repository)
                    | _ => get_external_partition_sets repository
                    end)) |}.
Proof.
  unfold get_partition_sets_or_error.
  destruct pipeline_name as [[|c s]|]; cbn [truthy_opt Py.truthy_str];
    [reflexivity| |reflexivity].
  assert (forall l : list ExternalPartitionSet,
             filter (fun partition_set =>
                       pipeline_name_eq (Some (String c s)) partition_set = true) l
             = filter (fun partition_set =>
                         FetchPartitionSets.pipeline_name partition_set = String c s) l)
    as ->; [|reflexivity].
  induction l as [|p rest IH]; [reflexivity|].
  rewrite !(filter_cons _ p), IH. cbn [pipeline_name_eq].
  destruct (String.eqb_spec (FetchPartitionSets.pipeline_name p) (String c s));
    repeat case_decide; congruence.
Qed.

(** The order of the sort keys is the order of the attributes. *)
Lemma ascending_attributes (p q : ExternalPartitionSet) :
  tuple_le (sort_key p) (sort_key q) -> before_or_equal p q.
Proof.
  intros Hle. apply tuple_le_iff in Hle.
  destruct (tuple_compare (sort_key p) (sort_key q)) eqn:Hcmp; [| |contradiction].
  - apply tuple_compare_Eq in Hcmp. injection Hcmp as H1 H2 H3. auto 7.
  - apply tuple_compare_Lt in Hcmp. cbn [sort_key fst snd] in Hcmp.
    destruct Hcmp as [H|[[E H]|(E1 & E2 & H)]]; auto 7.
Qed.

Lemma StronglySorted_impl {A : Type} (R R' : A -> A -> Prop) (l : list A) :
  (forall a b, R a b -> R' a b) -> StronglySorted R l -> StronglySorted R' l.
Proof.
  intros Himpl. induction 1 as [|x rest _ IH Hall]; constructor; [exact IH|].
  eapply Forall_impl; [exact Hall|]. intros y. apply Himpl.
Qed.

(** What a result of the listing holds is the partition set it was built
    from, and the handle is the one of the repository. *)
Lemma unwrap (repository : ExternalRepository RepositoryHandle)
  (l : list ExternalPartitionSet) :
  map external_partition_set (map (wrap repository) l) = l
  /\ Forall (fun r => external_repository_handle r = handle repository)
       (map (wrap repository) l).
Proof.
  split.
  - induction l as [|p rest IH]; [reflexivity|].
    cbn [map]. rewrite IH. reflexivity.
  - induction l as [|p rest IH]; constructor; [reflexivity|exact IH].
Qed.

(** C4 (as amended): every result of the listing carries the handle of
    the repository, and the partition sets that the results hold are
    sorted ascending by job name, then mode, then name.  Without a filter,
    and with the empty string as filter, they are all the partition sets
    of the repository; with a non-empty filter they are exactly the
    partition sets whose job name equals the filter.  Partition sets with
    equal attributes keep the order of the repository. *)
Theorem C4_listing (repository : ExternalRepository RepositoryHandle)
  (pipeline_name : option string) :
  exists listed,
    get_partition_sets_or_error repository pipeline_name =
      Node {| results := listed |}
    /\ Forall (fun r => external_repository_handle r = handle repository) listed
    /\ StronglySorted before_or_equal (map external_partition_set listed)
    /\ (pipeline_name = None \/ pipeline_name = Some EmptyString ->
        Permutation (map external_partition_set listed)
          (get_external_partition_sets repository)
        /\ forall k,
             filter (fun p => attributes p = k) (map external_partition_set listed) =
               filter (fun p => attributes p = k)
                 (get_external_partition_sets repository))
    /\ (forall s, pipeline_name = Some s -> s <> EmptyString ->
        let selected :=
          filter (fun p => FetchPartitionSets.pipeline_name p = s)
            (get_external_partition_sets repository) in
        Permutation (map external_partition_set listed) selected
        /\ (forall p, In p (map external_partition_set listed) <->
                      In p (get_external_partition_sets repository)
                      /\ FetchPartitionSets.pipeline_name p = s)
        /\ forall k,
             filter (fun p => attributes p = k) (map external_partition_set listed) =
               filter (fun p => attributes p = k) selected).
Proof.
  rewrite selection. eexists. split; [reflexivity|].
  split; [apply unwrap|]. rewrite (proj1 (unwrap repository _)).
  split.
  { eapply StronglySorted_impl; [exact ascending_attributes|].
    apply sorted_StronglySorted. }
  split.
  - intros [->| ->];
      (split; [apply sorted_Permutation|intros k; apply (sorted_stable sort_key)]).
  - intros s -> Hs. destruct s as [|c s]; [contradiction|]. cbn zeta.
    split; [apply sorted_Permutation|].
    split; [|intros k; apply (sorted_stable sort_key)].
    intros p. rewrite <- !list_elem_of_In.
    rewrite (sorted_Permutation sort_key _), list_elem_of_filter. tauto.
Qed.

(** The loop of [get_partition_set] returns the first partition set with
    the requested name. *)
Lemma scan_find (repository : ExternalRepository RepositoryHandle) (n : string)
  (l : list ExternalPartitionSet) :
  scan repository n l =
    match List.find (fun p => String.eqb (name p) n) l with
    | Some p => Found (wrap repository p)
    | None => PartitionSetNotFoundError n
    end.
Proof.
  induction l as [|p rest IH]; [reflexivity|].
  cbn [scan List.find]. destruct (String.eqb (name p) n); [reflexivity|exact IH].
Qed.

(** What the loop returns, on the list it went through: a result that
    holds the first partition set with the requested name, or the
    not-found value with that name when no partition set has it. *)
Lemma scan_first (repository : ExternalRepository RepositoryHandle) (n : string)
  (l : list ExternalPartitionSet) :
  (forall r,
      scan repository n l = Found r ->
      external_repository_handle r = handle repository
      /\ name (external_partition_set r) = n
      /\ exists before after,
           l = before ++ external_partition_set r :: after
           /\ Forall (fun q => name q <> n) before)
  /\ (forall requested,
        scan repository n l = PartitionSetNotFoundError requested ->
        requested = n /\ Forall (fun q => name q <> n) l).
Proof.
  induction l as [|p rest [IHfound IHmissing]]; cbn [scan].
  - split; [discriminate|]. intros requested [= <-]. split; [reflexivity|constructor].
  - destruct (String.eqb_spec (name p) n) as [Hname|Hname].
    + split; [|discriminate]. intros r [= <-].
      split; [reflexivity|]. split; [exact Hname|].
      exists [], rest. split; [reflexivity|constructor].
    + split.
      * intros r Hr. destruct (IHfound r Hr) as (Hh & Hn & before & after & -> & Hb).
        split; [exact Hh|]. split; [exact Hn|].
        exists (p :: before), after. split; [reflexivity|].
        constructor; assumption.
      * intros requested Hr. destruct (IHmissing requested Hr) as [-> Hall].
        split; [reflexivity|]. constructor; assumption.
Qed.

(** C5: getting one partition set by name never yields an error node.
    When some partition set has exactly that name, the answer is a result
    that carries the handle of the repository and holds the first
    partition set of the repository with that name; otherwise it is the
    not-found value carrying exactly the requested name.  Conversely, a
    result that is returned holds a partition set of the repository with
    the requested name, and the not-found value is returned only when no
    partition set has it. *)
Theorem C5_get_partition_set (repository : ExternalRepository RepositoryHandle)
  (partition_set_name : string) :
  (forall e, get_partition_set repository partition_set_name <> ErrorNode e)
  /\ ((exists p, In p (get_external_partition_sets repository)
                 /\ name p = partition_set_name) ->
      exists r before after,
        get_partition_set repository partition_set_name = Node (Found r)
        /\ external_repository_handle r = handle repository
        /\ name (external_partition_set r) = partition_set_name
        /\ get_external_partition_sets repository =
             before ++ external_partition_set r :: after
        /\ Forall (fun q => name q <> partition_set_name) before)
  /\ ((forall p, In p (get_external_partition_sets repository) ->
                 name p <> partition_set_name) ->
      get_partition_set repository partition_set_name =
        Node (PartitionSetNotFoundError partition_set_name))
  /\ (forall r,
        get_partition_set repository partition_set_name = Node (Found r) ->
        external_repository_handle r = handle repository
        /\ In (external_partition_set r) (get_external_partition_sets repository)
        /\ name (external_partition_set r) = partition_set_name)
  /\ (forall requested,
        get_partition_set repository partition_set_name =
          Node (PartitionSetNotFoundError requested) ->
        requested = partition_set_name
        /\ forall p, In p (get_external_partition_sets repository) ->
                     name p <> partition_set_name).
Proof.
  unfold get_partition_set. cbn [capture_dauphin_error].
  destruct (scan_first repository partition_set_name
              (get_external_partition_sets repository)) as [Hfound Hmissing].
  split; [discriminate|].
  destruct (scan repository partition_set_name
              (get_external_partition_sets repository)) as [r|requested] eqn:Hscan.
  - destruct (Hfound r eq_refl) as (Hh & Hn & before & after & Hsplit & Hbefore).
    split; [|split; [|split; [|discriminate]]].
    + intros _. exists r, before, after. auto.
    + intros Hnone. destruct (Hnone (external_partition_set r)); [|exact Hn].
      rewrite Hsplit. apply in_elt.
    + intros r' [= <-]. split; [exact Hh|]. split; [|exact Hn].
      rewrite Hsplit. apply in_elt.
  - destruct (Hmissing requested eq_refl) as [-> Hall].
    rewrite List.Forall_forall in Hall.
    split; [|split; [reflexivity|split; [discriminate|]]].
    + intros (p & Hin & Hname). destruct (Hall p Hin Hname).
    + intros requested [= <-]. split; [reflexivity|exact Hall].
Qed.

End FetchPartitionSetsFacts.

(** The listing of the example repository. *)
Example listing_order :
  FetchPartitionSets.get_partition_sets_or_error Examples.repository None =
    FetchPartitionSets.Node
      {| FetchPartitionSets.results :=
           map (FetchPartitionSets.wrap Examples.repository)
             [Examples.job1_modeA_p3; Examples.job1_modeB_p2; Examples.job2_modeA_p1] |}.
Proof. reflexivity. Qed.

Example listing_filtered :
  FetchPartitionSets.get_partition_sets_or_error Examples.repository (Some "job1") =
    FetchPartitionSets.Node
      {| FetchPartitionSets.results :=
           map (FetchPartitionSets.wrap Examples.repository)
             [Examples.job1_modeA_p3; Examples.job1_modeB_p2] |}.
Proof. reflexivity. Qed.

(** The counterexample to C4 as stated: with the empty string as filter the
    listing is not restricted to the partition sets whose job name is the
    empty string. *)
Lemma C4_counterexample :
  exists r,
    FetchPartitionSets.get_partition_sets_or_error Examples.repository (Some EmptyString) =
      FetchPartitionSets.Node r
    /\ In (FetchPartitionSets.wrap Examples.repository Examples.job1_modeA_p3)
         (FetchPartitionSets.results r)
    /\ FetchPartitionSets.pipeline_name Examples.job1_modeA_p3 <> EmptyString.
Proof.
  eexists. split; [reflexivity|]. split; [left; reflexivity|discriminate].
Qed.

(** The witness of C4: the example repository holds job2/modeA/p1,
    job1/modeB/p2, job1/modeA/p3 in this order; the listing holds them in
    the order job1/modeA/p3, job1/modeB/p2, job2/modeA/p1, and the filter
    ["job1"] keeps the first two. *)
Lemma C4_witness :
  exists everything listed,
    FetchPartitionSets.get_partition_sets_or_error Examples.repository None =
      FetchPartitionSets.Node {| FetchPartitionSets.results := everything |}
    /\ map (fun r => (FetchPartitionSets.external_repository_handle r,
                      FetchPartitionSets.external_partition_set r)) everything =
         [("repo", Examples.job1_modeA_p3); ("repo", Examples.job1_modeB_p2);
          ("repo", Examples.job2_modeA_p1)]
    /\ FetchPartitionSets.get_partition_sets_or_error Examples.repository (Some "job1") =
         FetchPartitionSets.Node {| FetchPartitionSets.results := listed |}
    /\ map (fun r => (FetchPartitionSets.external_repository_handle r,
                      FetchPartitionSets.external_partition_set r)) listed =
         [("repo", Examples.job1_modeA_p3); ("repo", Examples.job1_modeB_p2)]
    /\ Permutation (map FetchPartitionSets.external_partition_set listed)
         [Examples.job1_modeB_p2; Examples.job1_modeA_p3].
Proof.
  destruct (C4_listing string Examples.repository None)
    as (everything & Hall & _).
  destruct (C4_listing string Examples.repository (Some "job1"))
    as (listed & Hresult & _ & _ & _ & Hfilter).
  exists everything, listed.
  split; [exact Hall|]. split.
  { vm_compute in Hall. injection Hall as <-. reflexivity. }
  split; [exact Hresult|]. split.
  { vm_compute in Hresult. injection Hresult as <-. reflexivity. }
  apply (Hfilter "job1" eq_refl). discriminate.
Defined.

(** The witness of C5: a name of the example repository, and a name that
    is not there. *)
Lemma C5_witness :
  (exists r,
      FetchPartitionSets.get_partition_set Examples.repository "p2" =
        FetchPartitionSets.Node (FetchPartitionSets.Found r)
      /\ FetchPartitionSets.external_repository_handle r = "repo"
      /\ FetchPartitionSets.external_partition_set r = Examples.job1_modeB_p2)
  /\ FetchPartitionSets.get_partition_set Examples.repository "missing" =
       FetchPartitionSets.Node (FetchPartitionSets.PartitionSetNotFoundError "missing").
Proof.
  split.
  - destruct (C5_get_partition_set string Examples.repository "p2")
      as (_ & Hfound & _).
    destruct Hfound as (r & before & after & Hresult & Hhandle & _).
    + exists Examples.job1_modeB_p2. split; [right; left; reflexivity|reflexivity].
    + exists r. split; [exact Hresult|]. split; [exact Hhandle|].
      vm_compute in Hresult. injection Hresult as <-. reflexivity.
  - destruct (C5_get_partition_set string Examples.repository "missing")
      as (_ & _ & Hmissing & _).
    apply Hmissing. intros p [<-|[<-|[<-|[]]]]; discriminate.
Defined.

(** ** with_configs.py: the generator [get_github_docs] *)

Section GithubDocsFacts.
Import WithOpenAI.

Lemma for_each_map {A B : Type} (body : A -> result B) (g : A -> B) (l : list A) :
  Forall (fun x => body x = Ok (g x)) l -> Py.for_each body l = Ok (map g l).
Proof.
  induction 1 as [|x rest Hx _ IH]; [reflexivity|].
  cbn [Py.for_each map]. rewrite Hx, IH. reflexivity.
Qed.

(** What the pattern ["*/" + "*" + suffix] matches below [root]. *)
Lemma glob_one_level_In (suffix : string) (root : option node)
  (relative_path : string) (n : node) :
  In (relative_path, n) (glob_one_level suffix root) <->
    exists d entries name,
      In (d, Dir entries) (entries_of root)
      /\ In (name, n) entries
      /\ Py.endswith name suffix = true
      /\ relative_path = (d ++ "/" ++ name)%string.
Proof.
  unfold glob_one_level. rewrite in_flat_map. split.
  - intros ([d sub] & Hd & Hin). cbn [fst snd] in Hin.
    destruct sub as [|entries]; [destruct Hin|].
    apply in_map_iff in Hin as ([name n'] & [= <- <-] & Hfilter).
    apply filter_In in Hfilter as [Hentry Hsuffix].
    exists d, entries, name. auto.
  - intros (d & entries & name & Hd & Hentry & Hsuffix & ->).
    exists (d, Dir entries). split; [exact Hd|]. cbn [fst snd].
    apply in_map_iff. exists (name, n). split; [reflexivity|].
    apply filter_In. auto.
Qed.

(** C9 (as amended): for a category that is one path component,
    ingestion yields one Document for every entry named
    [*.md] or [*.mdx] that lies exactly one directory below
    [docs/content/<category>] (the patterns are ["*/*.md"] and
    ["*/*.mdx"]), provided each such entry is a regular file: its page
    content is the text of the file and its [source] is the URL built
    from owner, repository, revision and relative path. *)
Theorem C9_documents_one_level_down
  (checkout : node) (rev_parse_output repo_owner repo_name category : string) :
  path_component category = true ->
  let docs_path :=
    child category (child "content" (child "docs" (Some checkout))) in
  let matched :=
    glob_one_level ".md" docs_path ++ glob_one_level ".mdx" docs_path in
  (forall relative_path n,
      In (relative_path, n) matched <->
      exists d entries name,
        In (d, Dir entries) (entries_of docs_path)
        /\ In (name, n) entries
        /\ (Py.endswith name ".md" = true \/ Py.endswith name ".mdx" = true)
        /\ relative_path = (d ++ "/" ++ name)%string)
  /\ (Forall (fun m => exists content, snd m = File content) matched ->
      exists docs,
        get_github_docs checkout rev_parse_output repo_owner repo_name category
          = Ok docs
        /\ Forall2
             (fun m doc =>
                snd m = File (page_content doc)
                /\ metadata doc =
                     {[ "source" :=
                          ("https://github.com/" ++ repo_owner ++ "/" ++ repo_name
                             ++ "/blob/" ++ Py.strip rev_parse_output ++ "/"
                             ++ fst m)%string ]})
             matched docs).
Proof.
  intros _ docs_path matched. split.
  - intros relative_path n. unfold matched.
    rewrite in_app_iff, !glob_one_level_In. split.
    + intros [H|H]; destruct H as (d & entries & name & ? & ? & ? & ?);
        exists d, entries, name; auto.
    + intros (d & entries & name & ? & ? & [?|?] & ?);
        [left|right]; exists d, entries, name; auto.
  - intros Hfiles. unfold get_github_docs. fold docs_path. fold matched.
    set (content_of := fun m : string * node =>
           match snd m with File content => content | Dir _ => EmptyString end).
    set (document_of := fun m : string * node =>
           {| page_content := content_of m;
              metadata :=
                {[ "source" :=
                     github_url repo_owner repo_name (Py.strip rev_parse_output)
                       (fst m) ]} |}).
    eexists. split.
    + apply (for_each_map _ document_of).
      induction Hfiles as [|m rest [content Hm] _ IH]; constructor; [|exact IH].
      unfold document_of, content_of. rewrite Hm. reflexivity.
    + induction Hfiles as [|m rest [content Hm] _ IH]; constructor; [|exact IH].
      unfold document_of, content_of. cbn [page_content metadata].
      rewrite Hm. split; reflexivity.
Qed.

End GithubDocsFacts.

(** The counterexample to C9 as stated: Markdown files directly in the
    category directory and two directories down are files under it, and no
    Document is yielded for them. *)
Lemma C9_counterexample :
  exists docs,
    WithOpenAI.get_github_docs Examples.checkout Examples.rev_parse_output
      "dagster-io" "dagster" "guides" = Ok docs
    /\ In ("intro.md", "# Intro") (WithOpenAI.files_anywhere ".md" Examples.guides)
    /\ In ("assets/deep/nested.md", "# Nested")
         (WithOpenAI.files_anywhere ".md" Examples.guides)
    /\ Forall (fun doc => WithOpenAI.page_content doc <> "# Intro"
                          /\ WithOpenAI.page_content doc <> "# Nested") docs.
Proof.
  eexists. split; [vm_compute; reflexivity|].
  split; [vm_compute; tauto|]. split; [vm_compute; tauto|].
  repeat constructor; discriminate.
Qed.

(** The witness of C9: the example checkout, whose matches are files. *)
Lemma C9_witness :
  exists docs,
    WithOpenAI.get_github_docs Examples.checkout Examples.rev_parse_output
      "dagster-io" "dagster" "guides" = Ok docs
    /\ map WithOpenAI.page_content docs = ["# Overview"; "# Page"]
    /\ map (fun doc => WithOpenAI.metadata doc !! "source") docs =
         [Some "https://github.com/dagster-io/dagster/blob/abc123/assets/overview.md";
          Some "https://github.com/dagster-io/dagster/blob/abc123/assets/page.mdx"].
Proof.
  destruct (C9_documents_one_level_down Examples.checkout Examples.rev_parse_output
              "dagster-io" "dagster" "guides" eq_refl) as [_ Hdocs].
  destruct Hdocs as (docs & Hresult & Hall).
  - vm_compute. repeat constructor; eexists; reflexivity.
  - exists docs. split; [exact Hresult|].
    vm_compute in Hresult. injection Hresult as <-. split; vm_compute; reflexivity.
Defined.

(** ** with_configs.py: the sensor [question_sensor] *)

Section RunKeys.

Lemma append_nil (s : string) : (EmptyString ++ s)%string = s.
Proof. reflexivity. Qed.

Lemma append_cons (c : ascii) (a b : string) :
  (String c a ++ b)%string = String c (a ++ b)%string.
Proof. reflexivity. Qed.

Lemma append_prefix_inj (p a b : string) : (p ++ a = p ++ b)%string -> a = b.
Proof.
  induction p as [|c p IH]; [rewrite !append_nil; auto|].
  rewrite !append_cons. intros [= H]. auto.
Qed.

Lemma occurs_append (c : ascii) (a b : string) :
  Py.occurs c (a ++ b)%string = Py.occurs c a || Py.occurs c b.
Proof.
  induction a as [|d a IH]; [reflexivity|].
  rewrite append_cons. cbn [Py.occurs]. rewrite IH, orb_assoc. reflexivity.
Qed.

(** A text is cut in one way at its last underscore. *)
Lemma split_at_last_underscore (f f' s s' : string) :
  Py.occurs "_" s = false -> Py.occurs "_" s' = false ->
  (f ++ "_" ++ s = f' ++ "_" ++ s')%string -> f = f' /\ s = s'.
Proof.
  intros Hs Hs'. revert f'.
  assert (forall g t, Py.occurs "_" (g ++ String "_" t)%string = true) as Hocc.
  { intros g t. rewrite occurs_append. cbn [Py.occurs]. apply orb_true_r. }
  induction f as [|c f IH]; intros [|c' f'];
    repeat (rewrite append_nil || rewrite append_cons); intros H.
  - injection H as H. auto.
  - injection H as _ H. subst s. rewrite Hocc in Hs. discriminate.
  - injection H as _ H. subst s'. rewrite Hocc in Hs'. discriminate.
  - injection H as H1 H2. subst c'. destruct (IH f' H2) as [-> ->]. auto.
Qed.

Lemma pretty_N_go_no_underscore (x : N) (s : string) :
  Py.occurs "_" s = false -> Py.occurs "_" (pretty_N_go x s) = false.
Proof.
  revert s. induction (N.lt_wf_0 x) as [x _ IH]; intros s Hs.
  destruct (decide (x = 0)%N) as [->|Hx]; [rewrite pretty_N_go_0; exact Hs|].
  rewrite pretty_N_go_step by lia. apply IH.
  - apply N.div_lt; lia.
  - cbn [Py.occurs]. rewrite Hs, orb_false_r.
    unfold pretty_N_char. repeat case_match; reflexivity.
Qed.

Lemma pretty_N_no_underscore (x : N) : Py.occurs "_" (pretty x) = false.
Proof.
  unfold pretty, pretty_N. case_decide; [reflexivity|].
  apply pretty_N_go_no_underscore. reflexivity.
Qed.

Lemma Forall2_map_eq {A B C : Type} (R : A -> B -> Prop) (g : A -> C) (h : B -> C)
  (l : list A) (rs : list B) :
  Forall2 R l rs -> (forall a b, R a b -> h b = g a) -> map h rs = map g l.
Proof.
  intros Hall Hr. induction Hall as [|a b l' rs' Hab _ IH]; [reflexivity|].
  cbn [map]. rewrite (Hr a b Hab), IH. reflexivity.
Qed.

Lemma NoDup_map_through {A B C : Type} (g : A -> B) (h : A -> C) (l : list A) :
  (forall x y, h x = h y -> g x = g y) ->
  List.NoDup (map g l) -> List.NoDup (map h l).
Proof.
  intros Hgh. induction l as [|x rest IH]; cbn [map]; [constructor|].
  intros Hnd. apply List.NoDup_cons_iff in Hnd as [Hnotin Hnd].
  apply List.NoDup_cons_iff. split; [|auto].
  intros (y & Hy & Hin)%in_map_iff. apply Hnotin.
  apply in_map_iff. exists y. split; [apply Hgh; exact Hy|exact Hin].
Qed.

Lemma NoDup_map_filter {A B : Type} (g : A -> B) (keep : A -> bool) (l : list A) :
  List.NoDup (map g l) -> List.NoDup (map g (List.filter keep l)).
Proof.
  induction l as [|x rest IH]; cbn [map List.filter]; [constructor|].
  intros Hnd. apply List.NoDup_cons_iff in Hnd as [Hnotin Hnd].
  destruct (keep x); [|auto]. cbn [map].
  apply List.NoDup_cons_iff. split; [|auto].
  intros (y & Hy & Hin)%in_map_iff. apply Hnotin.
  apply in_map_iff. exists y. split; [exact Hy|].
  apply filter_In in Hin. tauto.
Qed.

Lemma NoDup_map_In_eq {A B : Type} (g : A -> B) (l : list A) (x y : A) :
  List.NoDup (map g l) -> In x l -> In y l -> g x = g y -> x = y.
Proof.
  induction l as [|z rest IH]; [intros _ []|]. cbn [map].
  intros Hnd. apply List.NoDup_cons_iff in Hnd as [Hnotin Hnd].
  intros [->|Hx] [->|Hy] Hg; auto.
  - destruct Hnotin. rewrite Hg. apply in_map. exact Hy.
  - destruct Hnotin. rewrite <- Hg. apply in_map. exact Hx.
Qed.

End RunKeys.

Section QuestionSensorFacts.
Import WithOpenAI.

Context {Mtime : Type} `{EqDecision Mtime}.
Variable str_of_mtime : Mtime -> string.
Variable json_load : string -> result json.

Abbreviation entry := (dir_entry (Mtime := Mtime)).
Abbreviation run_key_of := (make_run_key str_of_mtime).
Abbreviation request := (request_for str_of_mtime json_load).
Abbreviation decodes :=
  (fun item : string * entry => is_Some (members_of json_load (snd item))).

(** One round of the loop. *)
Lemma visit_skip previous_state state (item : string * entry) :
  Py.endswith (fst item) ".json" && isfile (snd item) = false ->
  visit str_of_mtime json_load previous_state state item = Ok state.
Proof.
  destruct state as [current runs], item as [filename e]. cbn [fst snd visit].
  intros ->. reflexivity.
Qed.

Lemma visit_unchanged previous_state current runs (item : string * entry) :
  Py.endswith (fst item) ".json" && isfile (snd item) = true ->
  due previous_state item = false ->
  visit str_of_mtime json_load previous_state (current, runs) item =
    Ok (record_mtime current item, runs).
Proof.
  destruct item as [filename e]. unfold due. cbn [fst snd visit].
  intros -> ->. reflexivity.
Qed.

Lemma visit_due previous_state current runs (item : string * entry) :
  Py.endswith (fst item) ".json" && isfile (snd item) = true ->
  due previous_state item = true ->
  decodes item ->
  visit str_of_mtime json_load previous_state (current, runs) item =
    Ok (record_mtime current item, runs ++ [request item]).
Proof.
  destruct item as [filename e]. unfold due, request_for, members_of.
  cbn [fst snd visit]. intros -> -> [members Hmembers].
  destruct (json_load (text e)) as [[]|]; try discriminate.
  injection Hmembers as ->. reflexivity.
Qed.

Lemma visit_raises previous_state current runs (item : string * entry) :
  Py.endswith (fst item) ".json" && isfile (snd item) = true ->
  due previous_state item = true ->
  members_of json_load (snd item) = None ->
  exists e, visit str_of_mtime json_load previous_state (current, runs) item = Raise e.
Proof.
  destruct item as [filename e]. unfold due, members_of.
  cbn [fst snd visit]. intros -> ->.
  destruct (json_load (text e)) as [[]|]; try discriminate; eauto.
Qed.

Lemma loop_cons_ok previous_state state state' (item : string * entry) rest :
  visit str_of_mtime json_load previous_state state item = Ok state' ->
  loop str_of_mtime json_load previous_state state (item :: rest) =
    loop str_of_mtime json_load previous_state state' rest.
Proof. intros Hvisit. cbn [loop]. rewrite Hvisit. reflexivity. Qed.

Lemma loop_cons_raise previous_state state e (item : string * entry) rest :
  visit str_of_mtime json_load previous_state state item = Raise e ->
  loop str_of_mtime json_load previous_state state (item :: rest) = Raise e.
Proof. intros Hvisit. cbn [loop]. rewrite Hvisit. reflexivity. Qed.

Lemma question_files_cons (item : string * entry) rest :
  question_files (item :: rest) =
    if Py.endswith (fst item) ".json" && isfile (snd item)
    then item :: question_files rest
    else question_files rest.
Proof. reflexivity. Qed.

(** The whole loop, when every due file decodes to a mapping. *)
Lemma loop_result previous_state (listing : list (string * entry)) :
  Forall (fun item => due previous_state item = true -> decodes item)
    (question_files listing) ->
  forall current runs,
    loop str_of_mtime json_load previous_state (current, runs) listing =
      Ok (foldl record_mtime current (question_files listing),
          runs ++ map request
                    (List.filter (due previous_state) (question_files listing))).
Proof.
  induction listing as [|item rest IH]; intros Hdecodes current runs.
  - cbn. rewrite app_nil_r. reflexivity.
  - rewrite question_files_cons in *.
    destruct (Py.endswith (fst item) ".json" && isfile (snd item)) eqn:Hfile.
    + apply Forall_cons in Hdecodes as [Hitem Hrest]. cbn [List.filter foldl].
      destruct (due previous_state item) eqn:Hdue.
      * rewrite (loop_cons_ok _ _ _ _ _
                   (visit_due _ current runs _ Hfile Hdue (Hitem eq_refl))).
        rewrite (IH Hrest). cbn [map]. rewrite <- app_assoc. reflexivity.
      * rewrite (loop_cons_ok _ _ _ _ _
                   (visit_unchanged _ current runs _ Hfile Hdue)).
        apply (IH Hrest).
    + rewrite (loop_cons_ok _ _ _ _ _ (visit_skip _ (current, runs) _ Hfile)).
      apply (IH Hdecodes).
Qed.

(** A due file that does not decode to a mapping aborts the loop. *)
Lemma loop_aborts previous_state (before after : list (string * entry))
  (item : string * entry) :
  Forall (fun item => due previous_state item = true -> decodes item)
    (question_files before) ->
  Py.endswith (fst item) ".json" && isfile (snd item) = true ->
  due previous_state item = true ->
  members_of json_load (snd item) = None ->
  forall state,
    exists e,
      loop str_of_mtime json_load previous_state state (before ++ item :: after)
        = Raise e.
Proof.
  intros Hbefore Hjson Hdue Hnone.
  induction before as [|b rest IH]; intros [current runs].
  - cbn [app].
    destruct (visit_raises previous_state current runs item Hjson Hdue Hnone)
      as [e He].
    exists e. apply loop_cons_raise, He.
  - cbn [app]. rewrite question_files_cons in Hbefore.
    destruct (Py.endswith (fst b) ".json" && isfile (snd b)) eqn:Hb.
    + apply Forall_cons in Hbefore as [Hitem Hrest].
      destruct (due previous_state b) eqn:Hdueb.
      * rewrite (loop_cons_ok _ _ _ _ _
                   (visit_due _ current runs _ Hb Hdueb (Hitem eq_refl))).
        apply (IH Hrest).
      * rewrite (loop_cons_ok _ _ _ _ _
                   (visit_unchanged _ current runs _ Hb Hdueb)).
        apply (IH Hrest).
    + rewrite (loop_cons_ok _ _ _ _ _ (visit_skip _ (current, runs) _ Hb)).
      apply (IH Hbefore).
Qed.

(** The cursor maps a name to the time of the entry under that name. *)
Lemma recorded_mtimes (l : list (string * entry)) :
  List.NoDup (map fst l) ->
  forall (current : gmap string Mtime) (f : string),
    foldl record_mtime current l !! f =
      match List.find (fun item => String.eqb (fst item) f) l with
      | Some item => Some (getmtime (snd item))
      | None => current !! f
      end.
Proof.
  induction l as [|item rest IH]; intros Hnd current f; [reflexivity|].
  cbn [map] in Hnd. apply List.NoDup_cons_iff in Hnd as [Hnotin Hnd].
  cbn [foldl List.find]. rewrite (IH Hnd).
  destruct (String.eqb_spec (fst item) f) as [<-|Hne].
  - destruct (List.find _ rest) as [other|] eqn:Hfind.
    + apply find_some in Hfind as [Hin Heq]. apply String.eqb_eq in Heq.
      destruct Hnotin. rewrite <- Heq. apply in_map. exact Hin.
    + unfold record_mtime. apply lookup_insert_eq.
  - destruct (List.find _ rest); [reflexivity|].
    unfold record_mtime. apply lookup_insert_ne. exact Hne.
Qed.

Lemma run_key_inj (f f' : string) (m m' : Mtime) :
  (forall a b, str_of_mtime a = str_of_mtime b -> a = b) ->
  (forall a, Py.occurs "_" (str_of_mtime a) = false) ->
  run_key_of f m = run_key_of f' m' -> f = f' /\ m = m'.
Proof.
  intros Hinj Hclean Hkey. unfold make_run_key in Hkey.
  apply append_prefix_inj in Hkey.
  apply split_at_last_underscore in Hkey as [-> Hm]; auto.
Qed.

End QuestionSensorFacts.

Section QuestionSensorEvaluation.
Import WithOpenAI.

Context {Mtime : Type} `{EqDecision Mtime}.
Variable str_of_mtime : Mtime -> string.
Variable json_load : string -> result json.

(** The entry is a file named [*.json]. *)
Abbreviation is_question :=
  (fun item : string * dir_entry (Mtime := Mtime) =>
     Py.endswith (fst item) ".json" && isfile (snd item)).

(** The prior cursor does not hold the current time of the file under
    its name: the file is new, or its time has changed. *)
Abbreviation new_or_changed :=
  (fun (previous_state : gmap string Mtime)
       (item : string * dir_entry (Mtime := Mtime)) =>
     bool_decide (previous_state !! fst item <> Some (getmtime (snd item)))).

Abbreviation key_of :=
  (fun (filename : string) (last_modified : Mtime) =>
     ("adhoc_request_" ++ filename ++ "_" ++ str_of_mtime last_modified)%string).

Lemma due_new_or_changed (previous_state : gmap string Mtime)
  (item : string * dir_entry (Mtime := Mtime)) :
  due previous_state item = new_or_changed previous_state item.
Proof.
  unfold due, changed.
  destruct (previous_state !! fst item) as [seen|].
  - destruct (decide (seen = getmtime (snd item))) as [->|Hne].
    + rewrite bool_decide_eq_true_2 by reflexivity.
      rewrite bool_decide_eq_false_2 by (intros Hx; apply Hx; reflexivity).
      reflexivity.
    + rewrite bool_decide_eq_false_2 by exact Hne.
      rewrite bool_decide_eq_true_2 by congruence. reflexivity.
  - rewrite bool_decide_eq_true_2 by discriminate. reflexivity.
Qed.

Lemma filter_due (previous_state : gmap string Mtime)
  (l : list (string * dir_entry (Mtime := Mtime))) :
  List.filter (due previous_state) l = List.filter (new_or_changed previous_state) l.
Proof. apply List.filter_ext. intros item. apply due_new_or_changed. Qed.

Lemma decodes_members (item : string * dir_entry (Mtime := Mtime)) :
  is_Some (members_of json_load (snd item)) <->
    exists members, json_load (text (snd item)) = Ok (JObject members).
Proof.
  unfold members_of. split.
  - intros [members Hm].
    destruct (json_load (text (snd item))) as [[]|]; try discriminate. eauto.
  - intros [members ->]. eauto.
Qed.

(** C8 (as amended): let the question files be the entries of the
    directory that are files named [*.json], and let those be requested
    whose name the prior cursor does not hold with their current
    modification time.  When the text of every requested file decodes to a
    JSON mapping, one evaluation emits exactly one request for each
    requested file, in listing order, with the run key
    [adhoc_request_<name>_<time>] and the decoded mapping as configuration
    of [completion]; no two requests have the same run key, and a run key
    determines the name and the time; no request is emitted for a question
    file that the prior cursor holds with its current time; and the new
    cursor maps each question file to its current time and holds nothing
    else.  When the text of a requested file does not decode to a JSON
    mapping, the evaluation raises. *)
Theorem C8_sensor_evaluation
  (listing : list (string * dir_entry (Mtime := Mtime)))
  (context_cursor : option (gmap string Mtime)) :
  let previous_state := default ∅ context_cursor in
  let present := List.filter is_question listing in
  let requested := List.filter (new_or_changed previous_state) present in
  (forall a b, str_of_mtime a = str_of_mtime b -> a = b) ->
  (forall a, Py.occurs "_" (str_of_mtime a) = false) ->
  List.NoDup (map fst listing) ->
  (Forall (fun item =>
             exists members, json_load (text (snd item)) = Ok (JObject members))
     requested ->
   exists result_,
    question_sensor str_of_mtime json_load listing context_cursor = Ok result_
    /\ Forall2
         (fun item r =>
            run_key r = key_of (fst item) (getmtime (snd item))
            /\ exists members,
                 json_load (text (snd item)) = Ok (JObject members)
                 /\ run_config r =
                      JObject
                        [("ops",
                          JObject
                            [("completion",
                              JObject [("config", JObject members)])])])
         requested (run_requests result_)
    /\ List.NoDup (map run_key (run_requests result_))
    /\ (forall item,
          In item present ->
          previous_state !! fst item = Some (getmtime (snd item)) ->
          forall r m, In r (run_requests result_) ->
                      run_key r <> key_of (fst item) m)
    /\ (forall f m f' m', key_of f m = key_of f' m' -> f = f' /\ m = m')
    /\ (forall f,
          cursor result_ !! f =
            (fun item => getmtime (snd item)) <$>
              List.find (fun item => String.eqb (fst item) f) present))
  /\ (forall before item after,
        listing = before ++ item :: after ->
        Forall (fun item =>
                  exists members, json_load (text (snd item)) = Ok (JObject members))
          (List.filter (new_or_changed previous_state)
             (List.filter is_question before)) ->
        is_question item = true ->
        previous_state !! fst item <> Some (getmtime (snd item)) ->
        (forall members, json_load (text (snd item)) <> Ok (JObject members)) ->
        exists e,
          question_sensor str_of_mtime json_load listing context_cursor = Raise e).
Proof.
  intros previous_state present requested Hinj Hclean Hnames.
  assert (forall l : list (string * dir_entry (Mtime := Mtime)),
             Forall (fun item =>
                       exists members,
                         json_load (text (snd item)) = Ok (JObject members))
               (List.filter (new_or_changed previous_state) (List.filter is_question l)) ->
             Forall (fun item => due previous_state item = true ->
                                 is_Some (members_of json_load (snd item)))
               (question_files l)) as Hbridge.
  { intros l Hall. apply List.Forall_forall. intros item Hin Hdue.
    apply decodes_members. rewrite List.Forall_forall in Hall. apply Hall.
    apply filter_In. split; [exact Hin|].
    rewrite <- due_new_or_changed. exact Hdue. }
  split; cycle 1.
  { intros before item after -> Hbefore Hfile Hdue Hnone.
    assert (due previous_state item = true) as Hdue'.
    { rewrite due_new_or_changed. apply bool_decide_eq_true_2. exact Hdue. }
    assert (members_of json_load (snd item) = None) as Hnone'.
    { destruct (members_of json_load (snd item)) as [members|] eqn:Hm; [|reflexivity].
      destruct (proj1 (decodes_members item)) as [members' Hload];
        [rewrite Hm; eauto|].
      destruct (Hnone members' Hload). }
    destruct (loop_aborts str_of_mtime json_load previous_state before after item
                (Hbridge before Hbefore) Hfile Hdue' Hnone' (∅, [])) as [e He].
    exists e. unfold question_sensor.
    change (match context_cursor with Some c => c | None => ∅ end)
      with previous_state.
    rewrite He. reflexivity. }
  intros Hdecode.
  assert (List.NoDup (map fst present)) as Hpresent
      by (apply NoDup_map_filter, Hnames).
  unfold question_sensor. fold previous_state.
  rewrite (loop_result str_of_mtime json_load previous_state listing
             (Hbridge listing Hdecode)).
  eexists. split; [reflexivity|]. cbn [run_requests cursor fst snd app mbind].
  change (question_files listing) with present. rewrite filter_due.
  fold requested. split; [|split; [|split; [|split]]].
  - clear -Hdecode. induction Hdecode as [|item rest [members Hload] _ IH];
      cbn [map]; constructor; [|exact IH].
    split; [reflexivity|]. exists members. split; [exact Hload|].
    unfold request_for, members_of. cbn [run_config]. rewrite Hload. reflexivity.
  - rewrite map_map. cbn [run_key request_for].
    apply (NoDup_map_through fst).
    + intros x y Hkey. apply (run_key_inj str_of_mtime) in Hkey; tauto.
    + apply NoDup_map_filter, Hpresent.
  - intros item Hin Hseen r m (other & <- & Hother)%in_map_iff Hkey.
    apply filter_In in Hother as [Hother Hdue'].
    cbn [run_key request_for] in Hkey.
    apply (run_key_inj str_of_mtime) in Hkey as [Hname _]; [|assumption..].
    assert (other = item) as -> by
      (apply (NoDup_map_In_eq fst present); assumption).
    apply bool_decide_eq_true_1 in Hdue'. contradiction.
  - intros f m f' m'. apply (run_key_inj str_of_mtime); assumption.
  - intros f. rewrite (recorded_mtimes _ Hpresent), lookup_empty.
    destruct (List.find _ present); reflexivity.
Qed.

End QuestionSensorEvaluation.

(** The counterexample to C8 as stated: a new [*.json] file whose text is
    not JSON; the evaluation raises and emits no request for it. *)
Lemma C8_counterexample :
  Py.endswith (fst Examples.broken) ".json" && WithOpenAI.isfile (snd Examples.broken)
    = true
  /\ (∅ : gmap string N) !! fst Examples.broken = None
  /\ WithOpenAI.question_sensor pretty Examples.load_example [Examples.broken] None =
       Raise (Py.JSONDecodeError "not json").
Proof. split; [reflexivity|]. split; reflexivity. Qed.

(** The witness of C8: a directory with an unchanged question, a touched
    one, a new one, a text file and a directory named like a question,
    evaluated from a cursor that also holds a question that is gone; times
    are printed in decimal. *)
Lemma C8_witness :
  exists result_,
    WithOpenAI.question_sensor pretty Examples.load_example MoreExamples.questions
      (Some MoreExamples.prior_cursor) = Ok result_
    /\ map WithOpenAI.run_key (WithOpenAI.run_requests result_) =
         ["adhoc_request_q2.json_9"; "adhoc_request_q3.json_4"]
    /\ map (fun f => WithOpenAI.cursor result_ !! f)
         ["q1.json"; "q2.json"; "q3.json"; "gone.json"; "notes.txt"; "old.json"] =
         [Some 5%N; Some 9%N; Some 4%N; None; None; None].
Proof.
  destruct (C8_sensor_evaluation (Mtime := N) pretty Examples.load_example
              MoreExamples.questions (Some MoreExamples.prior_cursor))
    as [Hemits _].
  - intros a b. apply (inj pretty).
  - apply pretty_N_no_underscore.
  - vm_compute. repeat constructor; intros Hin;
      repeat (destruct Hin as [Hin|Hin]; [discriminate|]); exact Hin.
  - destruct Hemits as (result_ & Hresult & Hrequests & _ & _ & _ & Hcursor).
    { repeat constructor; eexists; reflexivity. }
    exists result_. split; [exact Hresult|]. split.
    + rewrite (Forall2_map_eq _
                 (fun item : string * WithOpenAI.dir_entry (Mtime := N) =>
                    ("adhoc_request_" ++ fst item ++ "_"
                       ++ pretty (WithOpenAI.getmtime (snd item)))%string)
                 WithOpenAI.run_key _ _ Hrequests).
      * vm_compute. reflexivity.
      * intros item r [Hkey _]. exact Hkey.
    + cbn [map]. rewrite !Hcursor. reflexivity.
Defined.

(** The three evaluations of the cursor scenario: a new file, the same
    file again, the file touched. *)
Example sensor_first_evaluation :
  WithOpenAI.question_sensor pretty Examples.load_example [Examples.q1 5%N] None =
    Ok {| WithOpenAI.run_requests :=
            [WithOpenAI.request_for pretty Examples.load_example (Examples.q1 5%N)];
          WithOpenAI.cursor := {[ "q1.json" := 5%N ]} |}.
Proof. vm_compute. reflexivity. Qed.

Example sensor_second_evaluation :
  WithOpenAI.question_sensor pretty Examples.load_example [Examples.q1 5%N]
    (Some {[ "q1.json" := 5%N ]}) =
    Ok {| WithOpenAI.run_requests := [];
          WithOpenAI.cursor := {[ "q1.json" := 5%N ]} |}.
Proof. vm_compute. reflexivity. Qed.

Example sensor_after_touch :
  WithOpenAI.question_sensor pretty Examples.load_example [Examples.q1 6%N]
    (Some {[ "q1.json" := 5%N ]}) =
    Ok {| WithOpenAI.run_requests :=
            [WithOpenAI.request_for pretty Examples.load_example (Examples.q1 6%N)];
          WithOpenAI.cursor := {[ "q1.json" := 6%N ]} |}
  /\ WithOpenAI.run_key
       (WithOpenAI.request_for pretty Examples.load_example (Examples.q1 6%N))
     <> WithOpenAI.run_key
          (WithOpenAI.request_for pretty Examples.load_example (Examples.q1 5%N)).
Proof. split; [vm_compute; reflexivity|vm_compute; discriminate]. Qed.

(** ** with_configs.py: the asset [search_index] *)

Section SearchIndexFacts.
Import WithOpenAI.

Variable Index : Type.
Variable split_text : string -> list string.
Variable from_documents : list Document -> result Index.
Variable merge_from : Index -> Index -> Index.
Variable serialize_to_bytes : Index -> list byte.
Variable deserialize_from_bytes : list byte -> result Index.
Variable pickle_dump : list byte -> list byte.
Variable pickle_load : list byte -> result (list byte).
Variable lock_file_contents : option (list byte) -> list byte.

(** What an index holds. *)
Variable Entry : Type.
Variable entries : Index -> list Entry.

Abbreviation run :=
  (search_index Index split_text from_documents merge_from serialize_to_bytes
     deserialize_from_bytes pickle_dump pickle_load lock_file_contents).
Abbreviation persisted := (fun i : Index => pickle_dump (serialize_to_bytes i)).
Abbreviation decoded :=
  (fun data : list byte => pickle_load data ≫= deserialize_from_bytes).

(** C7: the lock is taken on the index file itself.  When acquiring the
    lock opens the lock file truncating it, the index file is empty by the
    time its size is read: the branch that reads the prior index and
    merges it never runs, and every run that builds its index writes that
    index alone, whatever the file held.  An index persisted by an earlier
    run is discarded: what it held and the new index does not hold is not
    in the index that the file holds after the run.  Serialising and
    pickling are taken to return, and for the last part the two encodings
    to be decoded by their inverses. *)
Theorem C7_prior_index_discarded
  (source_docs : list Document) (new : Index) (w : world) :
  (forall before, lock_file_contents before = []) ->
  from_documents (chunks_of split_text source_docs) = Ok new ->
  run source_docs w =
    (Ok tt,
     {| files := <[SEARCH_INDEX_FILE := persisted new]> (files w);
        trace := trace w ++
                   [LockAcquired SEARCH_INDEX_FILE; GetSize SEARCH_INDEX_FILE;
                    WriteFile SEARCH_INDEX_FILE; LockReleased SEARCH_INDEX_FILE] |})
  /\ (forall data,
        files w !! SEARCH_INDEX_FILE = Some data ->
        files (snd (run source_docs w)) !! SEARCH_INDEX_FILE = Some (persisted new))
  /\ ((forall data, pickle_load (pickle_dump data) = Ok data) ->
      (forall i, deserialize_from_bytes (serialize_to_bytes i) = Ok i) ->
      forall prior x,
        files w !! SEARCH_INDEX_FILE = Some (persisted prior) ->
        In x (entries prior) ->
        ~ In x (entries new) ->
        exists data index,
          files (snd (run source_docs w)) !! SEARCH_INDEX_FILE = Some data
          /\ decoded data = Ok index
          /\ ~ In x (entries index)).
Proof.
  intros Htruncates Hnew.
  assert (run source_docs w =
            (Ok tt,
             {| files := <[SEARCH_INDEX_FILE := persisted new]> (files w);
                trace := trace w ++
                           [LockAcquired SEARCH_INDEX_FILE; GetSize SEARCH_INDEX_FILE;
                            WriteFile SEARCH_INDEX_FILE;
                            LockReleased SEARCH_INDEX_FILE] |})) as Hrun.
  { unfold search_index. rewrite Hnew.
    unfold io_bind at 1. unfold lift at 1. unfold with_FileLock.
    rewrite Htruncates.
    unfold io_bind, getsize, write_bytes, io_ret, log.
    cbn [files trace]. rewrite lookup_insert_eq. cbn [length Nat.ltb Nat.leb].
    cbn [files trace]. rewrite insert_insert_eq, <- !app_assoc. reflexivity. }
  rewrite Hrun. cbn [snd files]. split; [reflexivity|]. split.
  - intros prior _. apply lookup_insert_eq.
  - intros Hpickle Hserde prior x _ _ Hnotin.
    exists (persisted new), new. split; [apply lookup_insert_eq|].
    split; [|exact Hnotin].
    rewrite Hpickle. cbn [mbind result_bind Py.bind]. apply Hserde.
Qed.

End SearchIndexFacts.

(** The witness of C7: the index of the guides is on file when the index
    of the integrations is built under a lock that truncates; the file
    then holds the index of the integrations alone. *)
Lemma C7_witness :
  WithOpenAI.files Examples.world_after_guides !! WithOpenAI.SEARCH_INDEX_FILE =
    Some [x80; x61; x62]
  /\ fst (Examples.run_search_index Examples.lock_truncates Examples.integration_docs
            Examples.world_after_guides) = Ok tt
  /\ WithOpenAI.files
       (snd (Examples.run_search_index Examples.lock_truncates
               Examples.integration_docs Examples.world_after_guides))
       !! WithOpenAI.SEARCH_INDEX_FILE =
     Some [x80; x63].
Proof.
  split; [vm_compute; reflexivity|].
  destruct (C7_prior_index_discarded (list byte) (fun s => [s])
              Examples.bytes_of_documents (fun new prior => new ++ prior)
              (fun i => i) (fun data => Ok data) Examples.pickle_dump
              Examples.pickle_load Examples.lock_truncates byte (fun i => i)
              Examples.integration_docs [x63] Examples.world_after_guides)
    as (Hrun & Hfile & _).
  - reflexivity.
  - reflexivity.
  - unfold Examples.run_search_index. rewrite Hrun. split; [reflexivity|].
    cbn [snd WithOpenAI.files]. apply lookup_insert_eq.
Defined.

(** The same two runs from an empty world, both under a lock that
    truncates: the file holds the second index only. *)
Example truncating_lock_overwrites :
  WithOpenAI.files
    (snd (Examples.run_search_index Examples.lock_truncates Examples.integration_docs
            (snd (Examples.run_search_index Examples.lock_truncates
                    Examples.guide_docs Examples.empty_world))))
    !! WithOpenAI.SEARCH_INDEX_FILE =
  Some [x80; x63].
Proof. vm_compute. reflexivity. Qed.

(** * Further properties *)

(** ** structured_config.py *)

Section ForEachFacts.

Lemma for_each_Ok {A B : Type} (body : A -> result B) (l : list A) (ys : list B) :
  Py.for_each body l = Ok ys <-> Forall2 (fun x y => body x = Ok y) l ys.
Proof.
  revert ys. induction l as [|x rest IH]; intros ys; cbn [Py.for_each].
  - split.
    + intros [= <-]. constructor.
    + intros Hall. inversion Hall. reflexivity.
  - destruct (body x) as [y|e] eqn:Hx; cbn [Py.bind].
    + destruct (Py.for_each body rest) as [zs|e] eqn:Hrest; cbn [Py.bind].
      * split.
        -- intros [= <-]. constructor; [exact Hx|]. apply IH. reflexivity.
        -- intros Hall. inversion Hall as [|? y' ? zs' Hy Hzs]; subst.
           apply IH in Hzs. congruence.
      * split; [discriminate|].
        intros Hall. inversion Hall as [|? y' ? zs' Hy Hzs]; subst.
        apply IH in Hzs. discriminate.
    + split; [discriminate|].
      intros Hall. inversion Hall as [|? y' ? zs' Hy Hzs]; subst. congruence.
Qed.


End ForEachFacts.

Section ClassInferenceFacts.
Import StructuredConfig.

Variable convert_potential_field : annotation -> result Field.
Variable validate_default : ConfigType -> Py.value -> result unit.
Variable resolve_implicit_default : ConfigType -> option (result Py.value).

Abbreviation converted :=
  (_convert_pydantic_field convert_potential_field validate_default
     resolve_implicit_default).
Abbreviation inferred :=
  (infer_schema_from_config_class convert_potential_field validate_default
     resolve_implicit_default).


(** X2: the class inference raises the error of the first declared field,
    in declaration order, that does not convert; later fields are not
    looked at. *)
Theorem class_inference_first_error name doc before fname f after descr e :
  Forall (fun item => Py.is_ok (converted (snd item)) = true) before ->
  converted f = Raise e ->
  inferred (TyConfig name doc (before ++ (fname, f) :: after)) descr = Raise e.
Proof.
  intros Hbefore Hf. rewrite infer_class_fields.
  rewrite (for_each_first_raise _ (fname, f) e).
  - reflexivity.
  - eapply Forall_impl; [exact Hbefore|]. intros item Hok. cbn beta in Hok |- *.
    destruct (converted (snd item)); [reflexivity|exact Hok].
  - cbn [snd]. rewrite Hf. reflexivity.
Qed.

End ClassInferenceFacts.

(** The witness of X2: the class [Broken], whose second field does not
    convert and whose third would raise another error. *)
Lemma class_inference_first_error_witness :
  StructuredConfig.infer_schema_from_config_class Examples.convert_scalar
    Examples.validate_scalar Examples.own_default MoreExamples.Broken None =
  Raise (Py.DagsterInvalidDefinitionError "datetime").
Proof.
  apply (class_inference_first_error Examples.convert_scalar
           Examples.validate_scalar Examples.own_default "Broken" None
           [("name", StructuredConfig.Build_ModelField (StructuredConfig.TyClass "str")
                       StructuredConfig.SHAPE_SINGLETON Py.VNone None)]
           "when" _ [("values", Examples.list_of_int)]).
  - repeat constructor.
  - reflexivity.
Defined.

Section StripFacts.

Lemma lstrip_start (s : string) : Ends.starts_with_space (Py.lstrip s) = false.
Proof.
  remember (String.length s) as n eqn:Hn. revert s Hn.
  induction (lt_wf n) as [n _ IH]. intros s ->.
  destruct s as [|a rest]; [reflexivity|]. cbn [Py.lstrip].
  destruct (Py.isspace a) eqn:Ha.
  { apply (IH (String.length rest)); [cbn; lia|reflexivity]. }
  destruct rest as [|b rest2]; [cbn; rewrite Ha; reflexivity|].
  destruct (Py.isspace2 a b) eqn:Hb.
  { apply (IH (String.length rest2)); [cbn; lia|reflexivity]. }
  destruct rest2 as [|c rest3]; [cbn; rewrite Ha, Hb; reflexivity|].
  destruct (Py.isspace3 a b c) eqn:Hc.
  { apply (IH (String.length rest3)); [cbn; lia|reflexivity]. }
  cbn [Ends.starts_with_space]. rewrite Ha, Hb, Hc. reflexivity.
Qed.

Lemma rstrip_end (s : string) : Ends.ends_with_space (Py.rstrip s) = false.
Proof.
  induction s as [|c rest IH]; [reflexivity|]. cbn [Py.rstrip]. cbn zeta.
  destruct (Py.is_space_char (String c (Py.rstrip rest))) eqn:Hc; [reflexivity|].
  cbn [Ends.ends_with_space]. rewrite Hc, IH. reflexivity.
Qed.

(** What [rstrip] keeps is the text up to what it drops. *)
Lemma rstrip_prefix (s : string) :
  exists dropped, s = (Py.rstrip s ++ dropped)%string.
Proof.
  induction s as [|c rest [dropped IH]]; [exists EmptyString; reflexivity|].
  cbn [Py.rstrip]. cbn zeta.
  destruct (Py.is_space_char (String c (Py.rstrip rest))).
  - exists (String c rest). reflexivity.
  - exists dropped. rewrite append_cons, <- IH. reflexivity.
Qed.

Lemma starts_with_space_prefix (kept dropped : string) :
  Ends.starts_with_space (kept ++ dropped)%string = false ->
  Ends.starts_with_space kept = false.
Proof.
  destruct kept as [|a [|b [|c rest]]];
    repeat (rewrite append_cons || rewrite append_nil);
    [reflexivity|..]; cbn [Ends.starts_with_space].
  - destruct (Py.isspace a); [discriminate|reflexivity].
  - destruct (Py.isspace a); [discriminate|].
    destruct (Py.isspace2 a b); [discriminate|reflexivity].
  - auto.
Qed.

Lemma strip_ends (s : string) :
  Ends.starts_with_space (Py.strip s) = false
  /\ Ends.ends_with_space (Py.strip s) = false.
Proof.
  unfold Py.strip. split; [|apply rstrip_end].
  pose proof (lstrip_start s) as Hstart.
  destruct (rstrip_prefix (Py.lstrip s)) as [dropped Hdropped].
  rewrite Hdropped in Hstart.
  apply (starts_with_space_prefix _ _ Hstart).
Qed.

End StripFacts.

Section DescriptionFacts.
Import StructuredConfig.

Variable convert_potential_field : annotation -> result Field.
Variable validate_default : ConfigType -> Py.value -> result unit.
Variable resolve_implicit_default : ConfigType -> option (result Py.value).

(** X3: the description of an inferred record schema is the description
    passed in when that is a non-empty text, else the docstring of the
    class stripped of the whitespace at its two ends, and absent when the
    class has no docstring; a description taken from the docstring neither
    begins nor ends with a whitespace character. *)
Theorem class_inference_description name doc fields descr fld :
  infer_schema_from_config_class convert_potential_field validate_default
    resolve_implicit_default (TyConfig name doc fields) descr = Ok fld ->
  field_description fld =
    match descr with
    | Some (String c text) => Some (String c text)
    | _ => match doc with
           | Some (String c text) => Some (Py.strip (String c text))
           | _ => None
           end
    end
  /\ (forall text,
        descr = None \/ descr = Some EmptyString ->
        field_description fld = Some text ->
        Ends.starts_with_space text = false /\ Ends.ends_with_space text = false).
Proof.
  rewrite infer_class_fields.
  destruct (Py.for_each _ fields) as [ys|e]; [|discriminate].
  cbn [mbind result_bind Py.bind]. intros Hfld.
  apply new_Field_Ok in Hfld as (_ & -> & _).
  assert (Py.or_else descr (docstring_of doc) =
            match descr with
            | Some (String c text) => Some (String c text)
            | _ => match doc with
                   | Some (String c text) => Some (Py.strip (String c text))
                   | _ => None
                   end
            end) as Hdescr.
  { destruct descr as [[|c text]|], doc as [[|d rest]|]; reflexivity. }
  split; [exact Hdescr|].
  intros text Hnone. rewrite Hdescr.
  destruct Hnone as [-> | ->]; destruct doc as [[|d rest]|]; try discriminate;
    intros [= <-]; apply strip_ends.
Qed.

End DescriptionFacts.

(** The witness of X3: a documented record, inferred without a
    description; its docstring begins with a line feed and a no-break
    space and ends with an ideographic space. *)
Lemma class_inference_description_witness :
  exists fld,
    StructuredConfig.infer_schema_from_config_class Examples.convert_scalar
      Examples.validate_scalar Examples.own_default MoreExamples.Documented None
      = Ok fld
    /\ StructuredConfig.field_description fld = Some "Settings of the step.".
Proof.
  eexists. split; [reflexivity|].
  destruct (class_inference_description Examples.convert_scalar
              Examples.validate_scalar Examples.own_default "Documented"
              MoreExamples.Documented_doc
              [("retries", Examples.retries_zero)] None _ eq_refl) as [Hdescr _].
  rewrite Hdescr. reflexivity.
Defined.

(** ** fetch_partition_sets.py *)

Section SortedComposition.
Import FetchPartitionSets.

Context {A : Type} (key : A -> string * string * string).

Abbreviation by_key := (fun a b : A => tuple_le (key a) (key b)).

Lemma insert_at_head (x : A) (l : list A) :
  Forall (fun z => tuple_ltb (key z) (key x) = false) l ->
  insert key x l = x :: l.
Proof.
  intros Hall. destruct Hall as [|z rest Hz _]; cbn [insert]; [reflexivity|].
  rewrite Hz. reflexivity.
Qed.

Lemma filter_insert (P : A -> Prop) `{forall x, Decision (P x)} (x : A) (l : list A) :
  StronglySorted by_key l ->
  filter P (insert key x l) =
    if decide (P x) then insert key x (filter P l) else filter P l.
Proof.
  induction 1 as [|y rest Hsorted IH Hall]; cbn [insert].
  - rewrite filter_cons, filter_nil. destruct (decide (P x)); reflexivity.
  - destruct (tuple_ltb (key y) (key x)) eqn:Hlt.
    + rewrite !(filter_cons _ y), IH.
      destruct (decide (P y)), (decide (P x)); try reflexivity.
      cbn [insert]. rewrite Hlt. reflexivity.
    + rewrite (filter_cons _ x). destruct (decide (P x)); [|reflexivity].
      symmetry. apply insert_at_head.
      apply Forall_forall. intros z [_ Hz]%list_elem_of_filter.
      apply elem_of_cons in Hz as [->|Hz]; [exact Hlt|].
      apply (tuple_le_trans _ (key y)); [exact Hlt|].
      apply (proj1 (Forall_forall _ _) Hall z Hz).
Qed.

(** Selecting commutes with the stable sort. *)
Lemma sorted_filter (P : A -> Prop) `{forall x, Decision (P x)} (l : list A) :
  sorted key (filter P l) = filter P (sorted key l).
Proof.
  induction l as [|x rest IH]; [reflexivity|].
  cbn [sorted]. rewrite filter_insert by apply sorted_StronglySorted.
  rewrite filter_cons. destruct (decide (P x)); [|exact IH].
  cbn [sorted]. rewrite IH. reflexivity.
Qed.

Lemma NoDup_map_filter_Prop {B : Type} (g : A -> B) (P : A -> Prop)
  `{forall x, Decision (P x)} (l : list A) :
  List.NoDup (map g l) -> List.NoDup (map g (filter P l)).
Proof.
  induction l as [|x rest IH]; cbn [map]; [constructor|].
  intros Hnd. apply List.NoDup_cons_iff in Hnd as [Hnotin Hnd].
  rewrite filter_cons. destruct (decide (P x)); [|auto]. cbn [map].
  apply List.NoDup_cons_iff. split; [|auto].
  intros (y & Hy & Hin)%in_map_iff. apply Hnotin.
  apply in_map_iff. exists y. split; [exact Hy|].
  apply list_elem_of_In in Hin. apply list_elem_of_filter in Hin as [_ Hin].
  apply list_elem_of_In. exact Hin.
Qed.

(** Two inputs with the same elements and distinct keys sort alike. *)
Lemma sorted_of_Permutation (l l' : list A) :
  Permutation l l' ->
  List.NoDup (map key l) ->
  sorted key l = sorted key l'.
Proof.
  intros Hperm Hnd.
  apply (StronglySorted_unique_strong by_key);
    [|apply sorted_StronglySorted..|].
  - intros x1 x2 Hx1 Hx2 H12 H21.
    apply (NoDup_map_In_eq key l); [exact Hnd|..].
    + apply list_elem_of_In. rewrite <- (sorted_Permutation key l). exact Hx1.
    + apply list_elem_of_In. rewrite Hperm, <- (sorted_Permutation key l'). exact Hx2.
    + apply tuple_le_iff in H12, H21.
      rewrite (tuple_compare_antisym (key x2) (key x1)) in H21.
      destruct (tuple_compare (key x1) (key x2)) eqn:Hcmp;
        [apply tuple_compare_Eq; exact Hcmp|destruct H21; reflexivity|
         destruct H12; reflexivity].
  - rewrite (sorted_Permutation key l), (sorted_Permutation key l'). exact Hperm.
Qed.

End SortedComposition.

Section ListingComposition.
Import FetchPartitionSets.

Variable RepositoryHandle : Type.

Abbreviation partition_sets_of :=
  (get_external_partition_sets (RepositoryHandle := RepositoryHandle)).

Lemma filter_wrapped (repository : ExternalRepository RepositoryHandle)
  (s : string) (l : list ExternalPartitionSet) :
  filter (fun r => FetchPartitionSets.pipeline_name (external_partition_set r) = s)
    (map (wrap repository) l) =
  map (wrap repository)
    (filter (fun p => FetchPartitionSets.pipeline_name p = s) l).
Proof.
  induction l as [|p rest IH]; [reflexivity|].
  cbn [map]. rewrite !filter_cons, IH. cbn [wrap external_partition_set].
  destruct (decide (FetchPartitionSets.pipeline_name p = s)); reflexivity.
Qed.

(** X6: the listing under a non-empty filter is the unfiltered listing
    restricted to the results of that job, in the same order. *)
Theorem filtered_listing_restricts_full_listing
  (repository : ExternalRepository RepositoryHandle) (s : string) :
  s <> EmptyString ->
  exists everything,
    get_partition_sets_or_error repository None =
      Node {| results := everything |}
    /\ get_partition_sets_or_error repository (Some s) =
         Node {| results :=
                   filter (fun r => FetchPartitionSets.pipeline_name
                                      (external_partition_set r) = s)
                     everything |}.
Proof.
  intros Hs. rewrite !selection. eexists. split; [reflexivity|].
  destruct s as [|c s]; [contradiction|].
  rewrite filter_wrapped, sorted_filter. reflexivity.
Qed.

(** X7: when the partition sets of a repository have distinct keys (job
    name, mode, name), the listing does not depend on the order in which
    the repository holds them. *)
Theorem listing_ignores_repository_order
  (repository repository' : ExternalRepository RepositoryHandle)
  (pipeline_name : option string) :
  handle repository = handle repository' ->
  Permutation (partition_sets_of repository) (partition_sets_of repository') ->
  List.NoDup (map sort_key (partition_sets_of repository)) ->
  get_partition_sets_or_error repository pipeline_name =
    get_partition_sets_or_error repository' pipeline_name.
Proof.
  intros Hhandle Hperm Hnd. rewrite !selection.
  assert (forall l, map (wrap repository) l = map (wrap repository') l) as ->.
  { intros l. apply map_ext. intros p. unfold wrap. rewrite Hhandle. reflexivity. }
  do 3 f_equal. destruct pipeline_name as [[|c s]|].
  - apply sorted_of_Permutation; assumption.
  - apply sorted_of_Permutation.
    + rewrite Hperm. reflexivity.
    + apply NoDup_map_filter_Prop. exact Hnd.
  - apply sorted_of_Permutation; assumption.
Qed.

(** X8: looking one partition set up by name agrees with the listing: a
    partition set that is found is among the unfiltered results and has
    the requested name, and when the answer is the not-found value no
    listed result has that name. *)
Theorem get_partition_set_agrees_with_listing
  (repository : ExternalRepository RepositoryHandle) (partition_set_name : string) :
  exists everything,
    get_partition_sets_or_error repository None = Node {| results := everything |}
    /\ (forall r,
          get_partition_set repository partition_set_name = Node (Found r) ->
          In r everything
          /\ name (external_partition_set r) = partition_set_name)
    /\ (forall requested,
          get_partition_set repository partition_set_name =
            Node (PartitionSetNotFoundError requested) ->
          requested = partition_set_name
          /\ forall r, In r everything ->
                       name (external_partition_set r) <> partition_set_name).
Proof.
  rewrite selection. eexists. split; [reflexivity|].
  unfold get_partition_set. cbn [capture_dauphin_error]. rewrite scan_find.
  destruct (List.find _ (get_external_partition_sets repository)) as [p|] eqn:Hfind.
  - split; [|discriminate]. intros r [= <-].
    apply find_some in Hfind as [Hin Hname]. apply String.eqb_eq in Hname.
    split; [|exact Hname]. apply in_map. apply list_elem_of_In.
    rewrite (sorted_Permutation sort_key _). apply list_elem_of_In. exact Hin.
  - split; [discriminate|]. intros requested [= <-]. split; [reflexivity|].
    intros r (p & <- & Hp)%in_map_iff. cbn [wrap external_partition_set].
    apply list_elem_of_In in Hp. rewrite (sorted_Permutation sort_key _) in Hp.
    apply list_elem_of_In in Hp.
    apply String.eqb_neq. apply (find_none _ _ Hfind p Hp).
Qed.

End ListingComposition.

(** The witness of X6: the filter ["job1"]. *)
Lemma filtered_listing_restricts_full_listing_witness :
  FetchPartitionSets.get_partition_sets_or_error Examples.repository (Some "job1") =
    FetchPartitionSets.Node
      {| FetchPartitionSets.results :=
           map (FetchPartitionSets.wrap Examples.repository)
             [Examples.job1_modeA_p3; Examples.job1_modeB_p2] |}.
Proof.
  destruct (filtered_listing_restricts_full_listing string Examples.repository "job1")
    as (everything & Hall & Hfiltered); [discriminate|].
  rewrite Hfiltered. vm_compute in Hall. injection Hall as <-. reflexivity.
Defined.

(** The witness of X7: the example repository in another order. *)
Lemma listing_ignores_repository_order_witness :
  FetchPartitionSets.get_partition_sets_or_error Examples.repository None =
    FetchPartitionSets.get_partition_sets_or_error MoreExamples.reordered None.
Proof.
  apply listing_ignores_repository_order.
  - reflexivity.
  - symmetry.
    apply (Permutation_cons_append
             [Examples.job2_modeA_p1; Examples.job1_modeB_p2] Examples.job1_modeA_p3).
  - repeat constructor; cbn; intuition discriminate.
Defined.

(** ** with_configs.py: ingestion and chunking *)

Section ChunkFacts.
Import WithOpenAI.

Variable split_text : string -> list string.

Abbreviation chunks := (chunks_of split_text).

(** X9: every chunk is a piece of the text of one source document and
    carries the metadata of that document unchanged; the texts of the
    chunks are the pieces of the documents, in the order of the documents;
    a document whose text splits into nothing contributes no chunk. *)
Theorem chunks_inherit_metadata (source_docs : list Document) :
  (forall chunk,
      In chunk (chunks source_docs) <->
      exists source text,
        In source source_docs
        /\ In text (split_text (page_content source))
        /\ chunk = {| page_content := text; metadata := metadata source |})
  /\ map page_content (chunks source_docs) =
       flat_map (fun source => split_text (page_content source)) source_docs
  /\ length (chunks source_docs) =
       list_sum (map (fun source => length (split_text (page_content source)))
                   source_docs).
Proof.
  split; [|split].
  - intros chunk. unfold chunks_of. rewrite in_flat_map. split.
    + intros (source & Hsource & Hin). apply in_map_iff in Hin as (text & <- & Htext).
      exists source, text. auto.
    + intros (source & text & Hsource & Htext & ->).
      exists source. split; [exact Hsource|]. apply in_map_iff. eauto.
  - induction source_docs as [|source rest IH]; [reflexivity|].
    unfold chunks_of in *. cbn [flat_map]. rewrite map_app, IH, map_map.
    cbn [page_content]. rewrite map_id. reflexivity.
  - induction source_docs as [|source rest IH]; [reflexivity|].
    unfold chunks_of in *. cbn [flat_map map list_sum].
    rewrite length_app, length_map, IH. reflexivity.
Qed.

Lemma Forall2_In_r {A B : Type} (R : A -> B -> Prop) (l : list A) (ys : list B) (y : B) :
  Forall2 R l ys -> In y ys -> exists x, In x l /\ R x y.
Proof.
  induction 1 as [|x y' l ys Hxy _ IH]; [intros []|].
  intros [<-|Hin].
  - exists x. split; [left; reflexivity|exact Hxy].
  - destruct (IH Hin) as (x' & Hx' & Hr). exists x'. split; [right; exact Hx'|exact Hr].
Qed.

(** X10: when the ingestion of a partition succeeds, every chunk built
    from its documents carries exactly one metadata entry, the [source]
    address of a file matched one directory below the category, so that
    formatting the summary of such a chunk never raises [KeyError]. *)
Theorem ingested_chunks_carry_their_source
  (checkout : node) (rev_parse_output partition_key : string)
  (docs : list Document) :
  Assets.source_docs checkout rev_parse_output partition_key = Ok docs ->
  forall chunk,
    In chunk (chunks docs) ->
    exists relative_path n,
      In (relative_path, n)
        (glob_one_level ".md"
           (child partition_key (child "content" (child "docs" (Some checkout))))
         ++ glob_one_level ".mdx"
              (child partition_key (child "content" (child "docs" (Some checkout)))))
      /\ metadata chunk =
           {[ "source" :=
                github_url "dagster-io" "dagster" (Py.strip rev_parse_output)
                  relative_path ]}
      /\ Assets.summary_of chunk =
           Assets.Returned
             (Assets.SUMMARY_TEMPLATE_format (page_content chunk)
                (github_url "dagster-io" "dagster" (Py.strip rev_parse_output)
                   relative_path)).
Proof.
  unfold Assets.source_docs, get_github_docs. intros Hdocs chunk Hchunk.
  apply for_each_Ok in Hdocs.
  apply (proj1 (chunks_inherit_metadata docs)) in Hchunk
    as (source & text & Hsource & _ & ->).
  destruct (Forall2_In_r _ _ _ _ Hdocs Hsource) as ([relative_path n] & Hin & Hdoc).
  cbn [fst snd] in Hdoc. destruct n as [content|entries]; [|discriminate].
  injection Hdoc as <-. exists relative_path, (File content).
  split; [exact Hin|]. cbn [metadata page_content]. split; [reflexivity|].
  unfold Assets.summary_of. cbn [metadata page_content].
  rewrite lookup_singleton_eq. reflexivity.
Qed.

End ChunkFacts.

(** The witness of X10: the chunks of the guides of the example checkout,
    one chunk per document. *)
Lemma ingested_chunks_carry_their_source_witness :
  exists docs,
    Assets.source_docs Examples.checkout Examples.rev_parse_output "guides" = Ok docs
    /\ map (fun chunk => WithOpenAI.metadata chunk !! "source")
         (WithOpenAI.chunks_of (fun text => [text]) docs) =
       [Some "https://github.com/dagster-io/dagster/blob/abc123/assets/overview.md";
        Some "https://github.com/dagster-io/dagster/blob/abc123/assets/page.mdx"]
    /\ Forall (fun chunk =>
                 exists summary, Assets.summary_of chunk = Assets.Returned summary)
         (WithOpenAI.chunks_of (fun text => [text]) docs).
Proof.
  destruct (Assets.source_docs Examples.checkout Examples.rev_parse_output "guides")
    as [docs|] eqn:Hdocs; [|vm_compute in Hdocs; discriminate].
  exists docs. split; [reflexivity|].
  pose proof (ingested_chunks_carry_their_source (fun text => [text])
                Examples.checkout Examples.rev_parse_output "guides" docs Hdocs)
    as Hchunks.
  split.
  - vm_compute in Hdocs. injection Hdocs as <-. vm_compute. reflexivity.
  - apply List.Forall_forall. intros chunk Hchunk.
    destruct (Hchunks chunk Hchunk) as (relative_path & n & _ & _ & Hsummary).
    eauto.
Defined.

Section IngestionErrors.
Import WithOpenAI.

(** X11: the ingestion does not tell directories from files: when an entry
    matched by the two patterns is a directory, and the entries matched
    before it are files, the ingestion raises [IsADirectoryError] for that
    entry and yields no list of documents. *)
Theorem ingestion_raises_on_matched_directory
  (checkout : node) (rev_parse_output repo_owner repo_name category : string)
  (before after : list (string * node)) (relative_path : string)
  (entries : list (string * node)) :
  glob_one_level ".md"
    (child category (child "content" (child "docs" (Some checkout))))
  ++ glob_one_level ".mdx"
       (child category (child "content" (child "docs" (Some checkout))))
  = before ++ (relative_path, Dir entries) :: after ->
  Forall (fun m => exists content, snd m = File content) before ->
  get_github_docs checkout rev_parse_output repo_owner repo_name category =
    Raise (Py.IsADirectoryError relative_path).
Proof.
  intros Hmatched Hbefore. unfold get_github_docs. rewrite Hmatched.
  apply for_each_first_raise; [|reflexivity].
  eapply Forall_impl; [exact Hbefore|].
  intros m [content Hm]. cbn beta. rewrite Hm. reflexivity.
Qed.

End IngestionErrors.

(** The witness of X11: a directory named [archive.md] beside a file. *)
Lemma ingestion_raises_on_matched_directory_witness :
  WithOpenAI.get_github_docs MoreExamples.checkout_with_directory
    Examples.rev_parse_output "dagster-io" "dagster" "guides" =
  Raise (Py.IsADirectoryError "assets/archive.md").
Proof.
  apply (ingestion_raises_on_matched_directory MoreExamples.checkout_with_directory
           Examples.rev_parse_output "dagster-io" "dagster" "guides"
           [("assets/overview.md", WithOpenAI.File "# Overview")] [] _ []).
  - reflexivity.
  - repeat constructor. eexists. reflexivity.
Defined.

(** ** with_configs.py: the sensor, evaluated again *)

Section SensorReevaluation.
Import WithOpenAI.

Context {Mtime : Type} `{EqDecision Mtime}.
Variable str_of_mtime : Mtime -> string.
Variable json_load : string -> result json.

Abbreviation sensor := (question_sensor str_of_mtime json_load).
Abbreviation looped := (loop str_of_mtime json_load).

(** The cursor that a completed loop leaves holds the times of the
    question files, whatever the prior cursor and the texts were. *)
Lemma loop_cursor previous_state (listing : list (string * dir_entry (Mtime := Mtime))) :
  forall current runs current' runs',
    looped previous_state (current, runs) listing = Ok (current', runs') ->
    current' = foldl record_mtime current (question_files listing).
Proof.
  induction listing as [|item rest IH]; intros current runs current' runs'.
  - cbn. intros [= <- _]. reflexivity.
  - rewrite question_files_cons.
    destruct (Py.endswith (fst item) ".json" && isfile (snd item)) eqn:Hfile.
    + cbn [foldl]. destruct (due previous_state item) eqn:Hdue.
      * destruct (members_of json_load (snd item)) as [members|] eqn:Hmembers.
        -- rewrite (loop_cons_ok _ _ _ _ _ _ _
                      (visit_due str_of_mtime json_load _ current runs _ Hfile Hdue
                         (ex_intro _ members Hmembers))).
           apply IH.
        -- destruct (visit_raises str_of_mtime json_load previous_state current runs
                       item Hfile Hdue Hmembers) as [e He].
           rewrite (loop_cons_raise _ _ _ _ _ _ _ He). discriminate.
      * rewrite (loop_cons_ok _ _ _ _ _ _ _
                   (visit_unchanged str_of_mtime json_load _ current runs _ Hfile Hdue)).
        apply IH.
    + rewrite (loop_cons_ok _ _ _ _ _ _ _
                 (visit_skip str_of_mtime json_load _ (current, runs) _ Hfile)).
      apply IH.
Qed.

Lemma find_self {A : Type} (g : A -> string) (l : list A) (x : A) :
  List.NoDup (map g l) -> In x l ->
  List.find (fun y => String.eqb (g y) (g x)) l = Some x.
Proof.
  intros Hnd Hin.
  destruct (List.find (fun y => String.eqb (g y) (g x)) l) as [y|] eqn:Hfind.
  - apply find_some in Hfind as [Hy Heq]. apply String.eqb_eq in Heq.
    f_equal. apply (NoDup_map_In_eq g l); assumption.
  - apply (find_none _ _ Hfind) in Hin. rewrite String.eqb_refl in Hin. discriminate.
Qed.

(** X12: an evaluation that starts from the cursor returned by an
    evaluation of the same directory emits no run request, reads no
    question text, and returns that cursor again. *)
Theorem sensor_settles_on_its_cursor
  (listing : list (string * dir_entry (Mtime := Mtime)))
  (context_cursor : option (gmap string Mtime)) (result_ : SensorResult) :
  List.NoDup (map fst listing) ->
  sensor listing context_cursor = Ok result_ ->
  sensor listing (Some (cursor result_)) =
    Ok {| run_requests := []; cursor := cursor result_ |}.
Proof.
  intros Hnames Hfirst.
  assert (List.NoDup (map fst (question_files listing))) as Hpresent
      by (apply NoDup_map_filter, Hnames).
  assert (cursor result_ = foldl record_mtime ∅ (question_files listing)) as Hcursor.
  { unfold question_sensor in Hfirst.
    destruct (loop _ _ _ (∅, []) listing) as [[current' runs']|] eqn:Hloop;
      [|discriminate].
    injection Hfirst as <-. cbn [cursor fst].
    apply (loop_cursor _ _ _ _ _ _ Hloop). }
  assert (Forall (fun item => due (cursor result_) item = false)
            (question_files listing)) as Hsettled.
  { apply List.Forall_forall. intros item Hitem. unfold due, changed.
    rewrite Hcursor, (recorded_mtimes _ Hpresent), (find_self fst _ item Hpresent Hitem).
    rewrite bool_decide_eq_true_2; reflexivity. }
  assert (List.filter (due (cursor result_)) (question_files listing) = [])
    as Hnone.
  { clear Hcursor Hpresent.
    induction Hsettled as [|item rest Hitem _ IH]; [reflexivity|].
    cbn [List.filter]. rewrite Hitem. exact IH. }
  unfold question_sensor.
  rewrite (loop_result str_of_mtime json_load (cursor result_) listing).
  - rewrite Hnone, <- Hcursor. reflexivity.
  - eapply Forall_impl; [exact Hsettled|]. intros item Hitem. cbn beta.
    rewrite Hitem. discriminate.
Qed.

(** X13: a directory without question files (an empty directory, or one
    that holds only other files and directories) yields no run request
    and the empty cursor, whatever the prior cursor was: the names of the
    prior cursor are forgotten. *)
Theorem sensor_without_question_files
  (listing : list (string * dir_entry (Mtime := Mtime)))
  (context_cursor : option (gmap string Mtime)) :
  question_files listing = [] ->
  sensor listing context_cursor = Ok {| run_requests := []; cursor := ∅ |}.
Proof.
  intros Hnone. unfold question_sensor.
  rewrite (loop_result str_of_mtime json_load _ listing)
    by (rewrite Hnone; constructor).
  rewrite Hnone. reflexivity.
Qed.

End SensorReevaluation.

(** The witness of X12: the second evaluation of the example directory. *)
Lemma sensor_settles_on_its_cursor_witness :
  WithOpenAI.question_sensor pretty Examples.load_example [Examples.q1 5%N]
    (Some {[ "q1.json" := 5%N ]}) =
  Ok {| WithOpenAI.run_requests := [];
        WithOpenAI.cursor := {[ "q1.json" := 5%N ]} |}.
Proof.
  assert (List.NoDup (map fst [Examples.q1 5%N])) as Hnames
      by (repeat constructor; cbn; tauto).
  assert (WithOpenAI.question_sensor pretty Examples.load_example
            [Examples.q1 5%N] None =
          Ok {| WithOpenAI.run_requests :=
                  [WithOpenAI.request_for pretty Examples.load_example
                     (Examples.q1 5%N)];
                WithOpenAI.cursor := {[ "q1.json" := 5%N ]} |}) as Hfirst
      by (vm_compute; reflexivity).
  exact (sensor_settles_on_its_cursor pretty Examples.load_example
           [Examples.q1 5%N] None _ Hnames Hfirst).
Defined.

(** The witness of X13: a directory with a text file and a directory named
    like a question, after an evaluation that had seen a question. *)
Lemma sensor_without_question_files_witness :
  WithOpenAI.question_sensor pretty Examples.load_example
    [("notes.txt", WithOpenAI.Build_dir_entry true 3%N "notes");
     ("old.json", WithOpenAI.Build_dir_entry false 4%N EmptyString)]
    (Some {[ "q1.json" := 5%N ]}) =
  Ok {| WithOpenAI.run_requests := []; WithOpenAI.cursor := ∅ |}.
Proof. apply sensor_without_question_files. reflexivity. Defined.

(** ** with_configs.py: the index file across [search_index] and
    [completion] *)

Section IndexFileFacts.
Import WithOpenAI.

Variable Index : Type.
Variable split_text : string -> list string.
Variable from_documents : list Document -> result Index.
Variable merge_from : Index -> Index -> Index.
Variable serialize_to_bytes : Index -> list byte.
Variable deserialize_from_bytes : list byte -> result Index.
Variable pickle_dump : list byte -> list byte.
Variable pickle_load : list byte -> result (list byte).
Variable lock_file_contents : option (list byte) -> list byte.
Variable Entry : Type.
Variable entries : Index -> list Entry.
Variable Client : Type.
Variable Chat : Type.
Variable get_client : result Client.
Variable ChatOpenAI : Client -> string -> result Chat.
Variable similarity_search : Index -> string -> nat -> result (list Document).
Variable chain_invoke : Chat -> list string -> string -> result string.

Abbreviation index_run :=
  (search_index Index split_text from_documents merge_from serialize_to_bytes
     deserialize_from_bytes pickle_dump pickle_load lock_file_contents).
Abbreviation on_file := (fun i : Index => pickle_dump (serialize_to_bytes i)).
Abbreviation complete :=
  (Assets.completion Index Client Chat deserialize_from_bytes pickle_load
     get_client ChatOpenAI similarity_search chain_invoke).
Abbreviation answered :=
  (Assets.answer Index Client Chat get_client ChatOpenAI similarity_search
     chain_invoke).

Abbreviation after_run := Assets.after_run.

(** Every run of [search_index], case by case. *)
Lemma search_index_cases (source_docs : list Document) (w : world) :
  index_run source_docs w =
    match from_documents (chunks_of split_text source_docs) with
    | Raise e => (Raise e, w)
    | Ok new =>
        let found := lock_file_contents (files w !! SEARCH_INDEX_FILE) in
        match found with
        | [] =>
            (Ok tt, after_run w (on_file new)
                      [GetSize SEARCH_INDEX_FILE; WriteFile SEARCH_INDEX_FILE])
        | _ :: _ =>
            match pickle_load found with
            | Raise e =>
                (Raise e, after_run w found
                            [GetSize SEARCH_INDEX_FILE; ReadFile SEARCH_INDEX_FILE])
            | Ok serialized =>
                match deserialize_from_bytes serialized with
                | Raise e =>
                    (Raise e, after_run w found
                                [GetSize SEARCH_INDEX_FILE; ReadFile SEARCH_INDEX_FILE])
                | Ok cached =>
                    (Ok tt, after_run w (on_file (merge_from new cached))
                              [GetSize SEARCH_INDEX_FILE; ReadFile SEARCH_INDEX_FILE;
                               WriteFile SEARCH_INDEX_FILE])
                end
            end
        end
    end.
Proof.
  unfold search_index.
  destruct (from_documents (chunks_of split_text source_docs)) as [new|e];
    [|reflexivity].
  unfold io_bind at 1. unfold lift at 1. unfold with_FileLock. cbn zeta.
  unfold io_bind, getsize, read_bytes, write_bytes, io_ret, lift, log, Assets.after_run.
  cbn [files trace]. rewrite lookup_insert_eq.
  destruct (lock_file_contents (files w !! SEARCH_INDEX_FILE)) as [|b data] eqn:Hfound.
  - cbn [length Nat.ltb Nat.leb]. cbn [files trace].
    rewrite insert_insert_eq, <- !app_assoc. reflexivity.
  - cbn [length Nat.ltb Nat.leb]. cbn [files trace]. rewrite lookup_insert_eq.
    destruct (pickle_load (b :: data)) as [serialized|e].
    + destruct (deserialize_from_bytes serialized) as [cached|e].
      * cbn [files trace]. rewrite insert_insert_eq, <- !app_assoc. reflexivity.
      * cbn [files trace]. rewrite <- !app_assoc. reflexivity.
    + cbn [files trace]. rewrite <- !app_assoc. reflexivity.
Qed.

(** X14: a run of [search_index] whose index cannot be built raises
    before the lock is taken and leaves the world as it was; every other
    run, also one that raises, takes the lock once and releases it last,
    performs between the two only size, read and write operations on the
    index file, and leaves every other file untouched. *)
Theorem search_index_lock_discipline (source_docs : list Document) (w : world) :
  (forall e,
      from_documents (chunks_of split_text source_docs) = Raise e ->
      index_run source_docs w = (Raise e, w))
  /\ (forall new,
        from_documents (chunks_of split_text source_docs) = Ok new ->
        exists ops,
          trace (snd (index_run source_docs w)) =
            trace w ++ LockAcquired SEARCH_INDEX_FILE :: ops
              ++ [LockReleased SEARCH_INDEX_FILE]
          /\ Forall (fun op => op = GetSize SEARCH_INDEX_FILE
                               \/ op = ReadFile SEARCH_INDEX_FILE
                               \/ op = WriteFile SEARCH_INDEX_FILE) ops
          /\ forall path,
               path <> SEARCH_INDEX_FILE ->
               files (snd (index_run source_docs w)) !! path = files w !! path).
Proof.
  rewrite search_index_cases. split.
  - intros e ->. reflexivity.
  - intros new ->. cbn zeta.
    destruct (lock_file_contents (files w !! SEARCH_INDEX_FILE)) as [|b data];
      [|destruct (pickle_load (b :: data)) as [serialized|e];
        [destruct (deserialize_from_bytes serialized) as [cached|e]|]];
      (eexists; split; [reflexivity|]; split;
       [repeat first [apply List.Forall_nil | apply List.Forall_cons; [auto|]]
       |intros path Hpath; cbn [snd Assets.after_run files];
        apply lookup_insert_ne; congruence]).
Qed.

(** X15: when acquiring the lock creates the index file empty and leaves
    an existing file as it is, two runs in a row, the first of which
    finds no index, both succeed, and the file then holds the second
    index merged with the first, which holds the entries of both. *)
Theorem two_runs_persist_both
  (docs_a docs_b : list Document) (a b : Index) (w : world) :
  lock_file_contents None = [] ->
  (forall data, lock_file_contents (Some data) = data) ->
  (forall data, pickle_load (pickle_dump data) = Ok data) ->
  (forall data, pickle_dump data <> []) ->
  (forall i, deserialize_from_bytes (serialize_to_bytes i) = Ok i) ->
  (forall i j x, In x (entries (merge_from i j)) <->
                 In x (entries i) \/ In x (entries j)) ->
  from_documents (chunks_of split_text docs_a) = Ok a ->
  from_documents (chunks_of split_text docs_b) = Ok b ->
  files w !! SEARCH_INDEX_FILE = None \/ files w !! SEARCH_INDEX_FILE = Some [] ->
  fst (index_run docs_a w) = Ok tt
  /\ fst (index_run docs_b (snd (index_run docs_a w))) = Ok tt
  /\ files (snd (index_run docs_b (snd (index_run docs_a w)))) !! SEARCH_INDEX_FILE =
       Some (on_file (merge_from b a))
  /\ (forall x, In x (entries (merge_from b a)) <->
                In x (entries a) \/ In x (entries b)).
Proof.
  intros Hcreate Hkeep Hpickle Hnonempty Hserde Hmerge Ha Hb Hfresh.
  assert (index_run docs_a w =
            (Ok tt, after_run w (on_file a)
                      [GetSize SEARCH_INDEX_FILE; WriteFile SEARCH_INDEX_FILE]))
    as Hfirst.
  { rewrite search_index_cases, Ha. cbn zeta.
    destruct Hfresh as [-> | ->]; rewrite ?Hcreate, ?Hkeep; reflexivity. }
  rewrite Hfirst. cbn [fst snd]. split; [reflexivity|].
  rewrite search_index_cases, Hb. cbn zeta.
  cbn [Assets.after_run files]. rewrite lookup_insert_eq, Hkeep.
  destruct (pickle_dump (serialize_to_bytes a)) as [|c data] eqn:Hdata;
    [destruct (Hnonempty _ Hdata)|].
  rewrite <- Hdata, Hpickle, Hserde. cbn [fst snd Assets.after_run files].
  split; [reflexivity|]. split; [apply lookup_insert_eq|].
  intros x. rewrite Hmerge. split; intros [Hx|Hx]; auto.
Qed.

(** X16: [completion] only reads: it never takes the lock and never
    changes a file; without an index file it raises [FileNotFoundError]
    and leaves the world as it was, and otherwise its one file operation
    is the read of the index file. *)
Theorem completion_only_reads (model question : string) (w : world) :
  files (snd (complete model question w)) = files w
  /\ (files w !! SEARCH_INDEX_FILE = None ->
      complete model question w =
        (Assets.Raised (Assets.Exn (Py.FileNotFoundError SEARCH_INDEX_FILE)), w))
  /\ (forall data,
        files w !! SEARCH_INDEX_FILE = Some data ->
        trace (snd (complete model question w)) =
          trace w ++ [ReadFile SEARCH_INDEX_FILE]).
Proof.
  unfold Assets.completion, io_bind, read_bytes, lift, log.
  destruct (files w !! SEARCH_INDEX_FILE) as [data|] eqn:Hfile.
  - destruct (pickle_load data) as [serialized|e];
      [destruct (deserialize_from_bytes serialized) as [index|e]|];
      (split; [reflexivity|]; split; [discriminate|]; intros ? _; reflexivity).
  - split; [reflexivity|]. split; [reflexivity|discriminate].
Qed.

(** X17: after a run of [search_index] that succeeds, [completion]
    answers from the very index that the run wrote: the new index, or the
    new index merged with the one the run found. *)
Theorem completion_reads_what_search_index_wrote
  (source_docs : list Document) (new : Index) (w w1 : world)
  (model question : string) :
  (forall data, pickle_load (pickle_dump data) = Ok data) ->
  (forall i, deserialize_from_bytes (serialize_to_bytes i) = Ok i) ->
  from_documents (chunks_of split_text source_docs) = Ok new ->
  index_run source_docs w = (Ok tt, w1) ->
  exists index,
    files w1 !! SEARCH_INDEX_FILE = Some (on_file index)
    /\ (index = new \/ exists found, index = merge_from new found)
    /\ complete model question w1 =
         (answered index model question,
          {| files := files w1; trace := trace w1 ++ [ReadFile SEARCH_INDEX_FILE] |}).
Proof.
  intros Hpickle Hserde Hnew. rewrite search_index_cases, Hnew. cbn zeta.
  assert (forall index ops,
             files (after_run w (on_file index) ops) !! SEARCH_INDEX_FILE =
               Some (on_file index)
             /\ complete model question (after_run w (on_file index) ops) =
                  (answered index model question,
                   {| files := files (after_run w (on_file index) ops);
                      trace := trace (after_run w (on_file index) ops)
                                 ++ [ReadFile SEARCH_INDEX_FILE] |})) as Hread.
  { intros index ops.
    assert (files (after_run w (on_file index) ops) !! SEARCH_INDEX_FILE =
              Some (on_file index)) as Hfile by apply lookup_insert_eq.
    split; [exact Hfile|].
    unfold Assets.completion, io_bind, read_bytes, lift, log.
    rewrite Hfile, Hpickle, Hserde. reflexivity. }
  destruct (lock_file_contents (files w !! SEARCH_INDEX_FILE)) as [|c data].
  - intros [= <-]. exists new. destruct (Hread new
      [GetSize SEARCH_INDEX_FILE; WriteFile SEARCH_INDEX_FILE]) as [Hfile Hrun].
    split; [exact Hfile|]. split; [left; reflexivity|exact Hrun].
  - destruct (pickle_load (c :: data)) as [serialized|e]; [|discriminate].
    destruct (deserialize_from_bytes serialized) as [cached|e]; [|discriminate].
    intros [= <-]. exists (merge_from new cached).
    destruct (Hread (merge_from new cached)
      [GetSize SEARCH_INDEX_FILE; ReadFile SEARCH_INDEX_FILE;
       WriteFile SEARCH_INDEX_FILE]) as [Hfile Hrun].
    split; [exact Hfile|]. split; [right; eauto|exact Hrun].
Qed.

End IndexFileFacts.

(** The witness of X15: the guides, then the integrations, from an empty
    world. *)
Lemma two_runs_persist_both_witness :
  WithOpenAI.files
    (snd (Examples.run_search_index Examples.lock_keeps Examples.integration_docs
            (snd (Examples.run_search_index Examples.lock_keeps Examples.guide_docs
                    Examples.empty_world))))
    !! WithOpenAI.SEARCH_INDEX_FILE =
  Some [x80; x63; x61; x62].
Proof.
  destruct (two_runs_persist_both (list byte) (fun s => [s])
              Examples.bytes_of_documents (fun new prior => new ++ prior)
              (fun i => i) (fun data => Ok data) Examples.pickle_dump
              Examples.pickle_load Examples.lock_keeps byte (fun i => i)
              Examples.guide_docs Examples.integration_docs [x61; x62] [x63]
              Examples.empty_world) as (_ & _ & Hfile & _).
  - reflexivity.
  - reflexivity.
  - reflexivity.
  - discriminate.
  - reflexivity.
  - intros i j x. apply in_app_iff.
  - reflexivity.
  - reflexivity.
  - left. reflexivity.
  - exact Hfile.
Defined.

(** The witness of X17: the question asked after the guides are indexed
    is answered from the two entries of that index. *)
Lemma completion_reads_what_search_index_wrote_witness :
  fst (MoreExamples.run_completion Examples.world_after_guides) =
    Assets.Returned "2".
Proof.
  destruct (completion_reads_what_search_index_wrote (list byte) (fun s => [s])
              Examples.bytes_of_documents (fun new prior => new ++ prior)
              (fun i => i) (fun data => Ok data) Examples.pickle_dump
              Examples.pickle_load Examples.lock_keeps unit string (Ok tt)
              MoreExamples.chat_of MoreExamples.documents_of
              MoreExamples.count_summaries
              Examples.guide_docs [x61; x62] Examples.empty_world
              Examples.world_after_guides "gpt-3.5-turbo" "What is an asset?")
    as (index & Hfile & _ & Hrun).
  - reflexivity.
  - reflexivity.
  - reflexivity.
  - vm_compute. reflexivity.
  - unfold MoreExamples.run_completion. rewrite Hrun. cbn [fst].
    assert (index = [x61; x62]) as ->.
    { vm_compute in Hfile. injection Hfile as <-. reflexivity. }
    vm_compute. reflexivity.
Defined.

(** ** with_configs.py: the summaries of [completion] and [get_wiki_data] *)

Section AnswerFacts.
Import WithOpenAI.

Variable Index : Type.
Variable Client : Type.
Variable Chat : Type.
Variable get_client : result Client.
Variable ChatOpenAI : Client -> string -> result Chat.
Variable similarity_search : Index -> string -> nat -> result (list Document).
Variable chain_invoke : Chat -> list string -> string -> result string.

Abbreviation answer_of :=
  (Assets.answer Index Client Chat get_client ChatOpenAI similarity_search
     chain_invoke).

Lemma comprehension_first_raise {A B : Type} (element : A -> Assets.outcome B)
  (before after : list A) (x : A) (e : Assets.exn) :
  Forall (fun y => exists b, element y = Assets.Returned b) before ->
  element x = Assets.Raised e ->
  Assets.comprehension element (before ++ x :: after) = Assets.Raised e.
Proof.
  induction 1 as [|y rest [b Hy] _ IH]; intros Hx; cbn [Assets.comprehension app].
  - rewrite Hx. reflexivity.
  - rewrite Hy. cbn [Assets.bind]. rewrite (IH Hx). reflexivity.
Qed.

Lemma comprehension_map {A B : Type} (element : A -> Assets.outcome B)
  (g : A -> B) (l : list A) :
  Forall (fun x => element x = Assets.Returned (g x)) l ->
  Assets.comprehension element l = Assets.Returned (map g l).
Proof.
  induction 1 as [|x rest Hx _ IH]; [reflexivity|].
  cbn [Assets.comprehension map]. rewrite Hx, IH. reflexivity.
Qed.

(** X18: once the client is there, [completion] builds the chat model
    first: when that raises, its error is the outcome, whatever the index
    holds.  With the chat model built, it asks the index for the 4 nearest
    documents and hands the chain one summary for each of them, in their
    order, each made of the page content and the [source] of the
    document; when a retrieved document has no [source] the outcome is a
    [KeyError] and the chain is not invoked. *)
Theorem answer_summarises_the_retrieved_documents
  (index : Index) (model question : string) (client : Client) :
  get_client = Ok client ->
  (forall e,
      ChatOpenAI client model = Raise e ->
      answer_of index model question = Assets.Raised (Assets.Exn e))
  /\ (forall chat docs,
        ChatOpenAI client model = Ok chat ->
        similarity_search index question 4 = Ok docs ->
        (Forall (fun doc => is_Some (metadata doc !! "source")) docs ->
         answer_of index model question =
           Assets.of_result
             (chain_invoke chat
                (map (fun doc =>
                        Assets.SUMMARY_TEMPLATE_format (page_content doc)
                          (default EmptyString (metadata doc !! "source")))
                   docs)
                question))
        /\ (forall before doc after,
              docs = before ++ doc :: after ->
              Forall (fun doc => is_Some (metadata doc !! "source")) before ->
              metadata doc !! "source" = None ->
              answer_of index model question =
                Assets.Raised (Assets.KeyError "source"))).
Proof.
  intros Hclient. unfold Assets.answer. rewrite Hclient.
  cbn [Assets.of_result Assets.bind]. split.
  { intros e ->. reflexivity. }
  intros chat docs -> ->. cbn [Assets.of_result Assets.bind]. split.
  - intros Hsources.
    rewrite (comprehension_map Assets.summary_of
               (fun doc =>
                  Assets.SUMMARY_TEMPLATE_format (page_content doc)
                    (default EmptyString (metadata doc !! "source")))).
    + reflexivity.
    + eapply Forall_impl; [exact Hsources|]. intros doc [source Hsource].
      unfold Assets.summary_of. rewrite Hsource. reflexivity.
  - intros before doc after -> Hbefore Hnone.
    rewrite (comprehension_first_raise Assets.summary_of before after doc
               (Assets.KeyError "source")).
    + reflexivity.
    + eapply Forall_impl; [exact Hbefore|]. intros d [source Hsource].
      unfold Assets.summary_of. rewrite Hsource. eauto.
    + unfold Assets.summary_of. rewrite Hnone. reflexivity.
Qed.

End AnswerFacts.

(** The witness of X18: two retrieved documents with a source. *)
Lemma answer_summarises_the_retrieved_documents_witness :
  Assets.answer (list byte) unit string (Ok tt) MoreExamples.chat_of
    MoreExamples.documents_of MoreExamples.count_summaries [x61; x62]
    "gpt-3.5-turbo" "What is an asset?" =
  Assets.Returned "2".
Proof.
  destruct (answer_summarises_the_retrieved_documents (list byte) unit string
              (Ok tt) MoreExamples.chat_of MoreExamples.documents_of
              MoreExamples.count_summaries [x61; x62]
              "gpt-3.5-turbo" "What is an asset?" tt eq_refl) as [_ Hbuilt].
  destruct (Hbuilt "gpt-3.5-turbo"
              (map (fun b =>
                      {| WithOpenAI.page_content := string_of_list_byte [b];
                         WithOpenAI.metadata := {[ "source" := "https://example.org" ]} |})
                 [x61; x62]) eq_refl eq_refl) as [Hanswer _].
  rewrite Hanswer; [reflexivity|].
  repeat constructor; eexists; reflexivity.
Defined.

Section WikiFacts.
Import WithOpenAI.

Variable requests_get_json : string -> result json.
Variable validate_page_content : json -> result string.

Abbreviation wiki := (Assets.get_wiki_data requests_get_json validate_page_content).

(** X19: [get_wiki_data] requests the extracts of the title (with
    [&exintro=1] appended for the first paragraph only) and reads the
    reply at [query], [pages], the first page, [extract]: the Document
    holds the extract of the first page, whatever follows it, and the
    address of the article as [source]; a reply without pages raises
    [StopIteration], and a first page without an extract raises
    [KeyError], also when a later page has one. *)
Theorem wiki_data_reads_the_first_page
  (title : string) (first_paragraph_only : bool) (data query : json) :
  requests_get_json (Assets.wiki_api_url title first_paragraph_only) = Ok data ->
  Assets.subscript data "query" = Assets.Returned query ->
  (forall key page others text,
      Assets.subscript query "pages" =
        Assets.Returned (JObject ((key, page) :: others)) ->
      Assets.subscript page "extract" = Assets.Returned (JString text) ->
      validate_page_content (JString text) = Ok text ->
      wiki title first_paragraph_only =
        Assets.Returned
          {| page_content := text;
             metadata :=
               {[ "source" := ("https://en.wikipedia.org/wiki/" ++ title)%string ]} |})
  /\ (Assets.subscript query "pages" = Assets.Returned (JObject []) ->
      wiki title first_paragraph_only = Assets.Raised Assets.StopIteration)
  /\ (forall key members others,
        Assets.subscript query "pages" =
          Assets.Returned (JObject ((key, JObject members) :: others)) ->
        List.find (fun member => String.eqb (fst member) "extract") members = None ->
        wiki title first_paragraph_only =
          Assets.Raised (Assets.KeyError "extract")).
Proof.
  intros Hreply Hquery. unfold Assets.get_wiki_data. rewrite Hreply.
  cbn [Assets.of_result Assets.bind]. rewrite Hquery. cbn [Assets.bind].
  split; [|split].
  - intros key page others text -> Hextract Hvalid.
    cbn [Assets.bind Assets.first_value snd]. rewrite Hextract.
    cbn [Assets.bind]. rewrite Hvalid. reflexivity.
  - intros ->. reflexivity.
  - intros key members others -> Hmissing.
    cbn [Assets.bind Assets.first_value snd Assets.subscript].
    rewrite Hmissing. reflexivity.
Qed.

End WikiFacts.

(** The witness of X19: a reply with one page. *)
Lemma wiki_data_reads_the_first_page_witness :
  Assets.get_wiki_data (fun url => Ok MoreExamples.wiki_reply)
    MoreExamples.string_only "Dagster" true =
  Assets.Returned
    {| WithOpenAI.page_content := "An orchestrator.";
       WithOpenAI.metadata := {[ "source" := "https://en.wikipedia.org/wiki/Dagster" ]} |}.
Proof.
  destruct (wiki_data_reads_the_first_page (fun url => Ok MoreExamples.wiki_reply)
              MoreExamples.string_only "Dagster" true MoreExamples.wiki_reply
              (WithOpenAI.JObject
                 [("pages", WithOpenAI.JObject
                     [("1234", WithOpenAI.JObject
                         [("title", WithOpenAI.JString "Dagster");
                          ("extract", WithOpenAI.JString "An orchestrator.")])])])
              eq_refl eq_refl) as [Hpage _].
  exact (Hpage "1234"
           (WithOpenAI.JObject
              [("title", WithOpenAI.JString "Dagster");
               ("extract", WithOpenAI.JString "An orchestrator.")])
           [] "An orchestrator." eq_refl eq_refl eq_refl).
Defined.
